(** * Transcription service: a shallow embedding of the request pipeline

    The development follows the Python sources of the service:
    - [schemas.py]                (configuration and response models),
    - [settings.py]               (process-wide settings),
    - [utils/service_utils.py]    (upload validation and audio probing),
    - [transcription_service.py]  (the two stage capabilities),
    - [routers.py]                (the worker function and the HTTP handler),
    - [app.py]                    (the mapping of raised exceptions to HTTP
                                   responses).

    Effects are explicit.  A computation is a function from a [world] (the
    files present, the log, the trace of calls into the external models and
    the positions in the clock and uuid streams) to a result and a new world;
    a result is a value or a raised exception.  Everything the service gets
    from outside (the clock, uuid4, json.loads, pydub, demucs, whisper, CUDA
    detection, the transport of an exception out of the process pool) is a
    field of the record [env]; the theorems quantify over it. *)

From Stdlib Require Import ZArith QArith Qround String Ascii List Lia Lqa.
From stdpp Require Import base option list strings pretty gmap sets.

Set Warnings "-register-all".
Local Open Scope Z_scope.
Local Open Scope string_scope.

(** ** Python values *)

(** Values that travel through JSON documents, dictionaries typed
    [Dict[str, Any]], log fields and response bodies.  A Python float is
    read as the rational it denotes; the two non-finite floats accepted by
    [json.loads] are kept apart. *)
Inductive pyval : Type :=
| VNone
| VBool (b : bool)
| VInt (z : Z)
| VFloat (q : Q)
| VNonFinite
| VStr (s : string)
| VList (l : list pyval)
| VDict (d : gmap string pyval).

(** An exception raised by library code: the name of its class
    ([type(e).__name__]) and its message ([str(e)]). *)
Record py_exc : Type := PyExc { exc_type : string; exc_str : string }.

(** What a handler can raise: FastAPI's [HTTPException], which carries a
    status and a detail dictionary, or any other exception. *)
Inductive exn : Type :=
| HTTPException (status_code : Z) (detail : gmap string pyval)
| Raised (e : py_exc).

Inductive result (A : Type) : Type :=
| Ok (a : A)
| Raise (e : exn).
Arguments Ok {A} a.
Arguments Raise {A} e.

(** ** The world *)

Inductive severity := INFO | WARNING | ERROR.

Record log_record : Type := LogRecord {
  level : severity;
  event : string;
  kwargs : list (string * pyval)
}.

(** Calls into the external models, in the order they are made. *)
Inductive call : Type :=
| CallSeparator (model device audio_fp : string)
| CallSaveAudio (vocals_fp : string)
| CallLoadModel (name device : string)
| CallTranscribe (name audio : string).

Record world : Type := World {
  fs : gset string;          (* the paths at which a file exists *)
  logs : list log_record;    (* structlog output, oldest first *)
  calls : list call;         (* model invocations, oldest first *)
  tick : nat;                (* readings of time.time() taken so far *)
  drawn : nat                (* uuid4() values drawn so far *)
}.

(** ** The state-and-exception monad *)

Definition M (A : Type) : Type := world -> result A * world.

Definition ret {A} (a : A) : M A := fun w => (Ok a, w).

Definition bind {A B} (m : M A) (k : A -> M B) : M B :=
  fun w => match m w with
           | (Ok a, w') => k a w'
           | (Raise e, w') => (Raise e, w')
           end.

Definition raise {A} (e : exn) : M A := fun w => (Raise e, w).

(** [try: m except ...: h e] where [h] decides, per exception, whether a
    clause matches ([Some]) or the exception passes through ([None]). *)
Definition try_except {A} (m : M A) (h : exn -> option (M A)) : M A :=
  fun w => match m w with
           | (Ok a, w') => (Ok a, w')
           | (Raise e, w') =>
               match h e with
               | Some handler => handler w'
               | None => (Raise e, w')
               end
           end.

(** [try: m finally: f].  The final block always runs; an exception it
    raises replaces the outcome of [m], a return value included. *)
Definition try_finally {A} (m : M A) (f : M unit) : M A :=
  fun w => match m w with
           | (r, w') =>
               match f w' with
               | (Ok _, w'') => (r, w'')
               | (Raise e, w'') => (Raise e, w'')
               end
           end.

Declare Scope py_scope.
Delimit Scope py_scope with py.
Notation "'let*' x ':=' m 'in' k" := (bind m (fun x => k))
  (at level 10, x pattern, m at level 100, k at level 200) : py_scope.
Notation "m ';;' k" := (bind m (fun _ => k))
  (at level 100, k at level 200, right associativity) : py_scope.
Local Open Scope py_scope.

(** ** Primitive effects *)

Definition set_fs (f : gset string -> gset string) (w : world) : world :=
  World (f (fs w)) (logs w) (calls w) (tick w) (drawn w).

Definition log (l : severity) (ev : string) (kw : list (string * pyval)) : M unit :=
  fun w => (Ok tt, World (fs w) (logs w ++ [LogRecord l ev kw]) (calls w) (tick w) (drawn w)).

Definition record_call (c : call) : M unit :=
  fun w => (Ok tt, World (fs w) (logs w) (calls w ++ [c]) (tick w) (drawn w)).

Definition FileNotFoundError (p : string) : py_exc :=
  PyExc "FileNotFoundError" ("[Errno 2] No such file or directory: '" +:+ p +:+ "'").

(** [open(p, "wb").write(content)]: afterwards a file exists at [p]. *)
Definition write_file (p : string) : M unit :=
  fun w => (Ok tt, set_fs (fun s => {[p]} ∪ s) w).

(** [Path.unlink()] with its default [missing_ok=False]: removes the file,
    and raises [FileNotFoundError] when there is none. *)
Definition unlink (p : string) : M unit :=
  fun w => if decide (p ∈ fs w)
           then (Ok tt, set_fs (fun s => s ∖ {[p]}) w)
           else (Raise (Raised (FileNotFoundError p)), w).

(** ** Strings *)

(** [str.lower()] on the ASCII letters (the supported formats and pydantic's
    boolean words are ASCII). *)
Definition lower_ascii (c : ascii) : ascii :=
  let n := nat_of_ascii c in
  if (Nat.leb 65 n && Nat.leb n 90)%bool then ascii_of_nat (n + 32) else c.

Fixpoint lower (s : string) : string :=
  match s with
  | EmptyString => EmptyString
  | String c s' => String (lower_ascii c) (lower s')
  end.

(** [str.lstrip('.')]. *)
Fixpoint lstrip_dots (s : string) : string :=
  match s with
  | String "."%char s' => lstrip_dots s'
  | _ => s
  end.

(** [s.split('/')]. *)
Fixpoint split_slash (s : string) : list string :=
  match s with
  | EmptyString => [EmptyString]
  | String c s' =>
      match split_slash s' with
      | [] => [String c EmptyString]
      | hd :: tl =>
          if Ascii.eqb c "/" then EmptyString :: hd :: tl
          else String c hd :: tl
      end
  end.

(** [name.rfind('.')]: the index of the last dot, if any. *)
Fixpoint rfind_dot (s : string) : option nat :=
  match s with
  | EmptyString => None
  | String c s' =>
      match rfind_dot s' with
      | Some i => Some (S i)
      | None => if Ascii.eqb c "." then Some O else None
      end
  end.

Fixpoint drop_string (n : nat) (s : string) : string :=
  match n, s with
  | O, _ => s
  | S n', String _ s' => drop_string n' s'
  | S _, EmptyString => EmptyString
  end.

(** [PurePath.name]: the last component of the path, where empty components
    and [.] components do not count. *)
Definition path_name (p : string) : string :=
  List.last (List.filter (fun c => negb (String.eqb c "" || String.eqb c ".")%bool)
                         (split_slash p)) "".

(** [PurePath.suffix] (Python 3.9):
    [i = name.rfind('.'); name[i:] if 0 < i < len(name) - 1 else ''] *)
Definition path_suffix (p : string) : string :=
  let name := path_name p in
  match rfind_dot name with
  | Some i =>
      if (Nat.ltb 0 i && Nat.ltb i (String.length name - 1))%bool
      then drop_string i name else ""
  | None => ""
  end.

(** [PurePath.is_absolute] on a POSIX path given as a string. *)
Definition is_absolute (p : string) : bool :=
  match p with
  | String c _ => Ascii.eqb c "/"
  | EmptyString => false
  end.

(** [dir / name]: an absolute right operand replaces the left one.  A path
    is identified with its string. *)
Definition path_join (dir name : string) : string :=
  if is_absolute name then name else dir +:+ "/" +:+ name.

Definition join_with (sep : string) (l : list string) : string :=
  match l with
  | [] => ""
  | x :: tl => fold_left (fun acc y => acc +:+ sep +:+ y) tl x
  end.

(** [repr] of a list of plain strings, as an f-string prints it. *)
Definition repr_str_list (l : list string) : string :=
  "[" +:+ join_with ", " (List.map (fun s => "'" +:+ s +:+ "'") l) +:+ "]".

(** ** Numbers *)

(** [int(x)] on a float: truncation toward zero. *)
Definition py_int (x : Q) : Z := Z.quot (Qnum x) (Z.pos (Qden x)).

(** [f"{x:.1f}"] for [x >= 0]: the exact value of the float rounded to the
    nearest tenth, a tie going to the even digit. *)
Definition format_1f (x : Q) : string :=
  let scaled := (x * 10)%Q in
  let below := Qfloor scaled in
  let tenths :=
    match (scaled - inject_Z below ?= 1 # 2)%Q with
    | Lt => below
    | Eq => if Z.even below then below else below + 1
    | Gt => below + 1
    end in
  pretty (tenths / 10) +:+ "." +:+ pretty (tenths mod 10).

(** ** settings.py *)

Record Settings : Type := {
  debug : bool;
  log_level : string;
  max_file_size_mb : Z;
  supported_formats : list string;
  background_workers : Z;
  temp_dir : string;
  request_timeout_sec : Z;
  separator_model : string
}.

(** The defaults of the class [Settings]; the default of [temp_dir] is the
    directory of the module, here a parameter. *)
Definition default_settings (module_dir : string) : Settings := {|
  debug := false;
  log_level := "INFO";
  max_file_size_mb := 100;
  supported_formats := ["wav"; "mp3"; "m4a"; "flac"; "ogg"];
  background_workers := 4;
  temp_dir := module_dir;
  request_timeout_sec := 300;
  separator_model := "htdemucs_ft"
|}.

(** ** The environment *)

(** A segment of whisper's result dictionary. *)
Record whisper_segment : Type := {
  seg_start : Q;
  seg_end : Q;
  seg_text : string
}.

(** whisper's result dictionary: the keys the service reads. *)
Record whisper_result : Type := {
  result_text : string;
  result_segments : list whisper_segment
}.

Record env : Type := {
  (* torch.cuda.is_available() *)
  cuda_is_available : bool;
  (* the n-th reading of time.time(), in seconds *)
  clock : nat -> Q;
  (* str(uuid.uuid4()), n-th draw *)
  uuid4 : nat -> string;
  (* json.loads on the config form field *)
  json_loads : string -> py_exc + pyval;
  (* str(e) for an HTTPException with the given status and detail *)
  http_exception_str : Z -> gmap string pyval -> string;
  (* pydantic's lax conversion of a string to an int *)
  str_as_int : string -> option Z;
  (* pydub: AudioSegment.from_file(path), giving len(audio) in ms and
     audio.frame_rate *)
  from_file : string -> py_exc + (Z * Z);
  (* demucs: Separator(model, device).separate_audio_file(file)["vocals"] *)
  separate_audio_file : string -> string -> string -> option py_exc;
  (* demucs: save_audio(vocals, path, samplerate); when it does not raise,
     the file exists afterwards *)
  save_audio : string -> option py_exc;
  (* whisper.load_model(name, device) *)
  load_model : string -> string -> option py_exc;
  (* whisper: model.transcribe(audio) for the model loaded as [name] *)
  model_transcribe : string -> string -> py_exc + whisper_result;
  (* multiprocessing: the exception AsyncResult.get() raises in the process
     of the handler when the task raised the given one in the worker: the
     same exception when it can be pickled and rebuilt, the pool's own
     MaybeEncodingError when it cannot be pickled *)
  async_result_get : py_exc -> py_exc;
  (* pydantic: str(e) of the ValidationError that the constructor of
     TranscriptionConfig raises, given what was passed for each of the five
     fields, in the order of their declaration *)
  config_error_str : list (option pyval) -> string;
  (* pydantic: str(e) of the ValidationError that TranscriptionResponse(...)
     raises when language is None *)
  response_error_str : string;
  (* str(e) of the TypeError raised when the given value, which is no
     mapping, is unpacked as keyword arguments *)
  unpack_error_str : pyval -> string
}.

(** ** schemas.py *)

Record TranscriptionConfig : Type := {
  language_hint : option string;   (* Optional[str] *)
  enable_separation : bool;
  diarize : bool;
  model_size : string;
  target_sr : Z
}.

Definition default_config : TranscriptionConfig := {|
  language_hint := Some "en";
  enable_separation := true;
  diarize := false;
  model_size := "small";
  target_sr := 16000
|}.

(** *** Field validation, as pydantic 2 does it in its default (lax) mode
    for Python input.  [None] is a validation error. *)

(** [Optional[str]]: [None] or a string. *)
Definition validate_optional_str (v : pyval) : option (option string) :=
  match v with
  | VNone => Some None
  | VStr s => Some (Some s)
  | _ => None
  end.

(** [str]: a string; numbers are not converted. *)
Definition validate_str (v : pyval) : option string :=
  match v with
  | VStr s => Some s
  | _ => None
  end.

Definition bool_false_words : list string := ["0"; "off"; "f"; "false"; "n"; "no"].
Definition bool_true_words : list string := ["1"; "on"; "t"; "true"; "y"; "yes"].

Definition int_as_bool (z : Z) : option bool :=
  if (z =? 0)%Z then Some false else if (z =? 1)%Z then Some true else None.

(** A float as an integer: it must have no fractional part and lie
    strictly between [-2^63] and [2^63]. *)
Definition float_as_int (q : Q) : option Z :=
  let r := Qred q in
  if (Pos.eqb (Qden r) 1 && (- 2 ^ 63 <? Qnum r)%Z && (Qnum r <? 2 ^ 63)%Z)%bool
  then Some (Qnum r) else None.

(** [bool]: a boolean, the integers 0 and 1, the floats 0.0 and 1.0, or one
    of the boolean words in any letter case. *)
Definition validate_bool (v : pyval) : option bool :=
  match v with
  | VBool b => Some b
  | VInt z => int_as_bool z
  | VFloat q => float_as_int q ≫= int_as_bool
  | VStr s =>
      if bool_decide (lower s ∈ bool_false_words) then Some false
      else if bool_decide (lower s ∈ bool_true_words) then Some true
      else None
  | _ => None
  end.

Section config.
Variable E : env.

(** [int]: an integer, a boolean, a float that converts, or a string that
    parses as an integer. *)
Definition validate_int (v : pyval) : option Z :=
  match v with
  | VInt z => Some z
  | VBool b => Some (if b then 1 else 0)
  | VFloat q => float_as_int q
  | VStr s => str_as_int E s
  | _ => None
  end.

(** A field of the model: the default when the key is absent, the
    validated value otherwise. *)
Definition field {A} (d : gmap string pyval) (key : string)
    (validate : pyval -> option A) (default : A) : option A :=
  match d !! key with
  | None => Some default
  | Some v => validate v
  end.

(** The exception the constructor raises on the keyword arguments [d]. *)
Definition ValidationError (d : gmap string pyval) : py_exc :=
  PyExc "ValidationError"
    (config_error_str E
       [d !! "language_hint"; d !! "enable_separation"; d !! "diarize";
        d !! "model_size"; d !! "target_sr"]).

(** The constructor, called with the dictionary unpacked as keyword
    arguments.  Keys that name
    no field are ignored (pydantic's default [extra='ignore']); when a field
    does not validate, one [ValidationError] is raised for all that do not. *)
Definition construct (d : gmap string pyval) : py_exc + TranscriptionConfig :=
  match field d "language_hint" validate_optional_str (language_hint default_config),
        field d "enable_separation" validate_bool (enable_separation default_config),
        field d "diarize" validate_bool (diarize default_config),
        field d "model_size" validate_str (model_size default_config),
        field d "target_sr" validate_int (target_sr default_config) with
  | Some l, Some s, Some z, Some m, Some t =>
      inr {| language_hint := l; enable_separation := s; diarize := z;
             model_size := m; target_sr := t |}
  | _, _, _, _, _ => inl (ValidationError d)
  end.

(** [TranscriptionConfig.from_dict]: the constructor on the unpacked
    dictionary.  Unpacking anything but a mapping is a [TypeError]. *)
Definition from_dict (j : pyval) : py_exc + TranscriptionConfig :=
  match j with
  | VDict d => construct d
  | _ => inl (PyExc "TypeError" (unpack_error_str E j))
  end.

(** [isinstance(e, (json.JSONDecodeError, ValueError))]: [JSONDecodeError]
    and pydantic's [ValidationError] are both subclasses of [ValueError]. *)
Definition is_ValueError (e : py_exc) : bool :=
  bool_decide (exc_type e ∈ ["ValueError"; "JSONDecodeError"; "ValidationError"]).

(** [TranscriptionConfig.from_json_string]. *)
Definition from_json_string (json_string : string) : M TranscriptionConfig :=
  try_except
    (match json_loads E json_string with
     | inl e => raise (Raised e)
     | inr j =>
         match from_dict j with
         | inl e => raise (Raised e)
         | inr c => ret c
         end
     end)
    (fun x =>
       match x with
       | Raised e =>
           if is_ValueError e then
             Some (log ERROR "Invalid configuration" [("error", VStr (exc_str e))];;
                   raise (HTTPException 400
                            {[ "error" := VStr "invalid_config";
                               "detail" := VStr ("Invalid JSON configuration: " +:+ exc_str e) ]}))
           else None
       | _ => None
       end).

(** The model as a dictionary ([model_dump]): its five fields. *)
Definition model_dump (c : TranscriptionConfig) : gmap string pyval :=
  {[ "language_hint" := match language_hint c with
                        | Some s => VStr s
                        | None => VNone
                        end;
     "enable_separation" := VBool (enable_separation c);
     "diarize" := VBool (diarize c);
     "model_size" := VStr (model_size c);
     "target_sr" := VInt (target_sr c) ]}.

End config.

(** [end] is a keyword here, hence [end_]. *)
Record TranscriptionSegment : Type := {
  start : Q;
  end_ : Q;
  text : string
}.

(** [TranscriptionSegment.get_segments_from_whisper_results] *)
Definition get_segments_from_whisper_results (result_dict : whisper_result)
  : list TranscriptionSegment :=
  List.map (fun segment => {| start := seg_start segment;
                              end_ := seg_end segment;
                              text := seg_text segment |})
           (result_segments result_dict).

Record PipelineInfo : Type := {
  separation : gmap string pyval;
  transcription : gmap string pyval
}.

(** The fields [load], [separation], [transcription] and [total], in
    milliseconds; the suffix keeps them apart from the fields of
    [PipelineInfo]. *)
Record TimingInfo : Type := {
  load_ms : Z;
  separation_ms : Z;
  transcription_ms : Z;
  total_ms : Z
}.

(** The field [text] is [response_text] here, [text] being taken by the
    segments. *)
Record TranscriptionResponse : Type := {
  request_id : string;
  duration_sec : Q;
  sample_rate : Z;
  pipeline : PipelineInfo;
  segments : list TranscriptionSegment;
  response_text : string;
  language : string;
  timings_ms : TimingInfo
}.

(** The response as the JSON document FastAPI sends. *)
Definition segment_json (s : TranscriptionSegment) : pyval :=
  VDict {[ "start" := VFloat (start s); "end" := VFloat (end_ s);
           "text" := VStr (text s) ]}.

Definition timing_json (t : TimingInfo) : pyval :=
  VDict {[ "load" := VInt (load_ms t); "separation" := VInt (separation_ms t);
           "transcription" := VInt (transcription_ms t);
           "total" := VInt (total_ms t) ]}.

Definition response_json (r : TranscriptionResponse) : pyval :=
  VDict {[ "request_id" := VStr (request_id r);
           "duration_sec" := VFloat (duration_sec r);
           "sample_rate" := VInt (sample_rate r);
           "pipeline" := VDict {[ "separation" := VDict (separation (pipeline r));
                                  "transcription" := VDict (transcription (pipeline r)) ]};
           "segments" := VList (List.map segment_json (segments r));
           "text" := VStr (response_text r);
           "language" := VStr (language r);
           "timings_ms" := timing_json (timings_ms r) ]}.

(** [str(e)] and [type(e).__name__] for anything raised. *)
Definition str_exn (E : env) (x : exn) : string :=
  match x with
  | HTTPException s d => http_exception_str E s d
  | Raised e => exc_str e
  end.

Definition type_name (x : exn) : string :=
  match x with
  | HTTPException _ _ => "HTTPException"
  | Raised e => exc_type e
  end.

(** ** utils/service_utils.py *)

Record UploadFile : Type := {
  filename : option string;
  content : list Byte.byte
}.

Section service_utils.
Variable st : Settings.
Variable E : env.

Definition validate_file_name_and_ext (file : UploadFile) : M string :=
  match filename file with
  | None | Some "" =>
      raise (HTTPException 400
               {[ "error" := VStr "invalid_file";
                  "detail" := VStr "No filename provided" ]})
  | Some name =>
      let file_extension := lstrip_dots (lower (path_suffix name)) in
      if bool_decide (file_extension ∈ supported_formats st)
      then ret file_extension
      else raise (HTTPException 400
                    {[ "error" := VStr "invalid_format";
                       "detail" := VStr ("Unsupported format: " +:+ file_extension
                                         +:+ ". Supported: "
                                         +:+ repr_str_list (supported_formats st)) ]})
  end.

Definition validate_file_size (content : list Byte.byte) : M Z :=
  let file_size := Z.of_nat (List.length content) in
  let max_size_bytes := max_file_size_mb st * 1024 * 1024 in
  if file_size >? max_size_bytes
  then raise (HTTPException 413
                {[ "error" := VStr "file_too_large";
                   "detail" := VStr ("File size "
                                     +:+ format_1f (inject_Z file_size / 1024 / 1024)%Q
                                     +:+ "MB exceeds limit of "
                                     +:+ pretty (max_file_size_mb st) +:+ "MB") ]})
  else ret file_size.

Definition get_audio_duration_and_sample_rate (audio_path : string) : M (Q * Z) :=
  match from_file E audio_path with
  | inr (len_ms, frame_rate) => ret ((inject_Z len_ms / 1000)%Q, frame_rate)
  | inl e =>
      if String.eqb (exc_type e) "CouldntDecodeError"
      then raise (HTTPException 422
                    {[ "error" := VStr "Unable to decode";
                       "detail" := VStr (exc_str e) ]})
      else raise (Raised e)
  end.

End service_utils.

(** ** transcription_service.py *)

Module TranscriptionService.
Section methods.
Variable st : Settings.
Variable E : env.

(** [time.time()]: the next reading of the clock. *)
Definition time_time : M Q :=
  fun w => (Ok (clock E (tick w)),
            World (fs w) (logs w) (calls w) (S (tick w)) (drawn w)).

(** Runs demucs on the audio and saves the vocals stem at
    [temp_dir / "vocals.wav"]. *)
Definition separate_vocals (audio_fp model device : string) : M string :=
  record_call (CallSeparator model device audio_fp);;
  match separate_audio_file E model device audio_fp with
  | Some e => raise (Raised e)
  | None =>
      let vocals_fp := path_join (temp_dir st) "vocals.wav" in
      record_call (CallSaveAudio vocals_fp);;
      match save_audio E vocals_fp with
      | Some e => raise (Raised e)
      | None => write_file vocals_fp;; ret vocals_fp
      end
  end.

(** Loads the whisper model, timing the load, and transcribes the file. *)
Definition transcribe_audio (vocals_fp transcription_model device : string)
  : M (string * list TranscriptionSegment * Q) :=
  let* load_stime := time_time in
  record_call (CallLoadModel transcription_model device);;
  match load_model E transcription_model device with
  | Some e => raise (Raised e)
  | None =>
      let* now := time_time in
      let load_time := (now - load_stime)%Q in
      record_call (CallTranscribe transcription_model vocals_fp);;
      match model_transcribe E transcription_model vocals_fp with
      | inl e => raise (Raised e)
      | inr result =>
          let segments := get_segments_from_whisper_results result in
          ret (result_text result, segments, load_time)
      end
  end.

End methods.
End TranscriptionService.

(** ** routers.py *)

(** What the handler reads from the request: [request.state.request_id],
    when some middleware has set it. *)
Record Request : Type := {
  state_request_id : option string
}.

(** [str(x)] inside an f-string, for an [Optional[str]]. *)
Definition format_optional_str (o : option string) : string :=
  match o with
  | Some s => s
  | None => "None"
  end.

Section routers.
Variable st : Settings.
Variable E : env.

Abbreviation time_time := (TranscriptionService.time_time E).

(** [str(uuid.uuid4())] *)
Definition uuid_uuid4 : M string :=
  fun w => (Ok (uuid4 E (drawn w)),
            World (fs w) (logs w) (calls w) (tick w) (S (drawn w))).

(** The constructor of [TranscriptionResponse]: [language] must be a
    string, so a configuration whose [language_hint] is [None] fails
    validation. *)
Definition make_response (request_id : string) (duration : Q) (sample_rate : Z)
    (pipeline_info : PipelineInfo) (text : string) (language : option string)
    (timing_info : TimingInfo) (segments : list TranscriptionSegment)
  : M TranscriptionResponse :=
  match language with
  | Some l =>
      ret {| request_id := request_id; duration_sec := duration;
             sample_rate := sample_rate; pipeline := pipeline_info;
             segments := segments; response_text := text; language := l;
             timings_ms := timing_info |}
  | None =>
      raise (Raised (PyExc "ValidationError" (response_error_str E)))
  end.

(** The function run in a worker process of the pool. *)
Definition transcribe_audio (audio_fp : string)
    (transcription_config : TranscriptionConfig) (request_id : string)
    (duration : Q) (sample_rate : Z) : M TranscriptionResponse :=
  let* start_time := time_time in
  let device := if cuda_is_available E then "cuda" else "cpu" in
  log INFO (device +:+ " will be used.") [("request_id", VStr request_id)];;
  let* sep_stime := time_time in
  (* Process audio *)
  let* vocals_fp :=
    try_except
      (TranscriptionService.separate_vocals st E audio_fp (separator_model st) device)
      (fun e =>
         Some (log WARNING "Vocal separation failed, skipping vocal separation step."
                 [("request_id", VStr request_id);
                  ("error", VStr (str_exn E e));
                  ("error_type", VStr (type_name e))];;
               ret audio_fp)) in
  let* now := time_time in
  let sep_time := (now - sep_stime)%Q in
  let* transcription_stime := time_time in
  let* transcribed :=
    TranscriptionService.transcribe_audio E vocals_fp
      (model_size transcription_config +:+ "."
         +:+ format_optional_str (language_hint transcription_config))
      "cuda" in
  let '(text, segs, load_time) := transcribed in
  let* now := time_time in
  let transcription_time := (now - transcription_stime)%Q in
  (* Calculate total time *)
  let* now := time_time in
  let total_time := py_int (now - start_time)%Q in
  let timing_info :=
    {| load_ms := py_int (load_time * 1000)%Q;
       separation_ms := py_int (sep_time * 1000)%Q;
       transcription_ms := py_int (transcription_time * 1000)%Q;
       total_ms := total_time * 1000 |} in
  let pipeline_info :=
    {| separation := {[ "enables" := VBool (enable_separation transcription_config);
                        "method" := VStr "demucs" ]};
       transcription := {[ "model" := VStr (model_size transcription_config) ]} |} in
  let* response :=
    make_response request_id duration sample_rate pipeline_info text
      (language_hint transcription_config) timing_info segs in
  unlink vocals_fp;;
  log INFO "Transcription completed successfully"
    [("request_id", VStr request_id);
     ("duration_sec", VFloat duration);
     ("segments", VInt (Z.of_nat (List.length (segments response))));
     ("total_time_ms", VInt total_time)];;
  ret response.

(** [pool.apply_async(task, kwds=...).get()]: the task runs in a worker
    process of the pool and the handler waits for its result.  The effects
    of the task (files, log records, calls into the models, readings of the
    clock) are those of the worker.  A return value travels back pickled
    and arrives as it was.  An exception travels back pickled too, and
    [get()] raises what arrives: [async_result_get] of the exception the
    task raised.  The worker raises no [HTTPException] (lemma
    [worker_raises_library_only] below), so no transport is described for
    one.

    An exception that can be pickled but not rebuilt in the process of the
    handler (a class whose constructor needs arguments that [args] does not
    hold, such as [urllib.error.HTTPError]) never arrives, and [get()], which
    is called without a timeout, waits for ever.  Such a run has no outcome:
    this definition describes the runs in which [get()] returns. *)
Definition apply_async_get {A} (task : M A) : M A :=
  fun w => match task w with
           | (Ok a, w') => (Ok a, w')
           | (Raise (Raised e), w') => (Raise (Raised (async_result_get E e)), w')
           | (Raise (HTTPException s d), w') => (Raise (HTTPException s d), w')
           end.

(** The handler of [POST /transcribe/]. *)
Definition transcribe (request : Request) (file : UploadFile) (config : string)
  : M TranscriptionResponse :=
  let request_id := default "unknown" (state_request_id request) in
  let* transcription_config := from_json_string E config in
  (* Validate file and file extension *)
  let* file_extension := validate_file_name_and_ext st file in
  (* Check file size *)
  let content := content file in
  let* file_size := validate_file_size st content in
  log INFO "File validation passed"
    [("request_id", VStr request_id);
     ("file_size_mb", VFloat (inject_Z file_size / 1024 / 1024)%Q);
     ("format", VStr file_extension)];;
  (* Save file temporarily *)
  let* u := uuid_uuid4 in
  let audio_fp :=
    path_join (temp_dir st) (request_id +:+ "_" +:+ u +:+ "." +:+ file_extension) in
  write_file audio_fp;;
  let* probed := get_audio_duration_and_sample_rate E audio_fp in
  let '(audio_duration, sample_rate) := probed in
  try_finally
    (try_except
       (apply_async_get
          (transcribe_audio audio_fp transcription_config request_id
             audio_duration sample_rate))
       (fun e =>
          match e with
          | HTTPException _ _ => None
          | Raised _ =>
              Some (log ERROR "Transcription failed"
                      [("request_id", VStr request_id);
                       ("error", VStr (str_exn E e));
                       ("error_type", VStr (type_name e))];;
                    raise (HTTPException 500
                             {[ "request_id" := VStr request_id;
                                "error" := VStr "processing_failed";
                                "detail" := VStr (str_exn E e) ]}))
          end))
    (unlink audio_fp).

End routers.

(** ** app.py *)

Record Response : Type := {
  status : Z;
  body : pyval
}.

Section app.
Variable st : Settings.
Variable E : env.

(** The handler registered for [Exception]. *)
Definition global_exception_handler (request : Request) (exc : py_exc) : M Response :=
  let request_id := default "unknown" (state_request_id request) in
  log ERROR "Unhandled exception"
    [("request_id", VStr request_id);
     ("error", VStr (exc_str exc));
     ("error_type", VStr (exc_type exc))];;
  ret {| status := 500;
         body := VDict {[ "request_id" := VStr request_id;
                          "error" := VStr "Internal server error";
                          "detail" := VStr (if debug st then exc_str exc
                                            else "An unexpected error occurred") ]} |}.

(** One request to [POST /v1/transcribe/] as the client sees it: the
    handler's return value is sent with status 200, an [HTTPException] is
    sent with its own status and its detail under the key [detail], and
    anything else goes to [global_exception_handler]. *)
Definition post_transcribe (request : Request) (file : UploadFile) (config : string)
  : world -> Response * world :=
  fun w =>
    match transcribe st E request file config w with
    | (Ok r, w') => ({| status := 200; body := response_json r |}, w')
    | (Raise (HTTPException s d), w') =>
        ({| status := s; body := VDict {[ "detail" := VDict d ]} |}, w')
    | (Raise (Raised e), w') =>
        match global_exception_handler request e w' with
        | (Ok resp, w'') => (resp, w'')
        | (Raise _, w'') =>
            ({| status := 500; body := VStr "Internal Server Error" |}, w'')
        end
    end.

End app.

(** ** Derived notions used in the statements *)

(** The clock readings of one run of the worker: the first is taken on
    entry, the last (the eighth) just before the timings are assembled. *)
Definition start_reading (E : env) (w : world) : Q := clock E (tick w).
Definition final_reading (E : env) (w : world) : Q := clock E (tick w + 7).

(** The correlation identifier of a request, as the handler reads it. *)
Definition correlation_id (request : Request) : string :=
  default "unknown" (state_request_id request).

(** The path under which the handler saves the upload of a request that
    arrives in world [w] and whose extension validated to [ext]. *)
Definition upload_path (st : Settings) (E : env) (request : Request)
    (ext : string) (w : world) : string :=
  path_join (temp_dir st)
    (correlation_id request +:+ "_" +:+ uuid4 E (drawn w) +:+ "." +:+ ext).

(** The path of the separated vocals. *)
Definition vocals_path (st : Settings) : string :=
  path_join (temp_dir st) "vocals.wav".

(** The device the worker resolves. *)
Definition resolved_device (E : env) : string :=
  if cuda_is_available E then "cuda" else "cpu".

(** Whether the separation stage raises on the given audio, and with what. *)
Definition separation_outcome (st : Settings) (E : env) (audio_fp : string)
  : option py_exc :=
  match separate_audio_file E (separator_model st) (resolved_device E) audio_fp with
  | Some e => Some e
  | None => save_audio E (vocals_path st)
  end.

(** The file the transcription stage is given. *)
Definition stage2_input (st : Settings) (E : env) (audio_fp : string) : string :=
  match separation_outcome st E audio_fp with
  | Some _ => audio_fp
  | None => vocals_path st
  end.

(** The model spec the worker asks whisper for. *)
Definition model_spec (c : TranscriptionConfig) : string :=
  model_size c +:+ "." +:+ format_optional_str (language_hint c).

(** What the transcription stage does on a file: the exception it raises,
    or whisper's result. *)
Definition transcription_outcome (E : env) (c : TranscriptionConfig)
    (audio : string) : py_exc + whisper_result :=
  match load_model E (model_spec c) "cuda" with
  | Some e => inl e
  | None => model_transcribe E (model_spec c) audio
  end.

(** The world in which the handler starts the worker: the validation has
    been logged, one uuid has been drawn, the upload is saved. *)
Definition world_after_save (st : Settings) (E : env) (request : Request)
    (ext : string) (size : Z) (w : world) : world :=
  World ({[ upload_path st E request ext w ]} ∪ fs w)
        (logs w ++ [LogRecord INFO "File validation passed"
                      [("request_id", VStr (correlation_id request));
                       ("file_size_mb", VFloat (inject_Z size / 1024 / 1024)%Q);
                       ("format", VStr ext)]])
        (calls w) (tick w) (S (drawn w)).

(** The five fields of the configuration model. *)
Definition field_names : list string :=
  ["language_hint"; "enable_separation"; "diarize"; "model_size"; "target_sr"].

(** The value already has the JSON type its field declares: a string or
    null for [language_hint], a boolean for the two flags, a string for
    [model_size], an integer for [target_sr]. *)
Definition has_declared_type (key : string) (v : pyval) : bool :=
  if String.eqb key "language_hint"
  then match v with VNone | VStr _ => true | _ => false end
  else if (String.eqb key "enable_separation" || String.eqb key "diarize")%bool
  then match v with VBool _ => true | _ => false end
  else if String.eqb key "model_size"
  then match v with VStr _ => true | _ => false end
  else if String.eqb key "target_sr"
  then match v with VInt _ => true | _ => false end
  else false.

(** The round trip in the words of the specification: the re-serialized
    configuration shows, for each of the five fields, exactly the value of
    the input object, or the default when the input has none. *)
Definition preserved_exactly (d : gmap string pyval) (c : TranscriptionConfig) : Prop :=
  forall key, key ∈ field_names ->
    model_dump c !! key =
    match d !! key with
    | Some v => Some v
    | None => model_dump default_config !! key
    end.

(** ** Scenarios *)

Definition quote : string := String (ascii_of_nat 34) EmptyString.

(** The config documents of the scenarios, as text. *)
Definition empty_config_text : string := "{}".
Definition no_separation_text : string :=
  "{" +:+ quote +:+ "enable_separation" +:+ quote +:+ ": false}".
Definition malformed_config_text : string := "invalid json string".

(** [json.loads] on those texts. *)
Definition scenario_loads (s : string) : py_exc + pyval :=
  if String.eqb s empty_config_text then inr (VDict ∅)
  else if String.eqb s no_separation_text
       then inr (VDict {[ "enable_separation" := VBool false ]})
       else inl (PyExc "JSONDecodeError" "Expecting value: line 1 column 1 (char 0)").

Definition hello_world : whisper_result :=
  {| result_text := "hello world";
     result_segments :=
       [ {| seg_start := 0; seg_end := 5; seg_text := "hello world" |} ] |}.

Definition out_of_memory : py_exc := PyExc "RuntimeError" "CUDA out of memory".
Definition bad_header : py_exc :=
  PyExc "CouldntDecodeError" "Decoding failed. ffmpeg returned error code: 1".

(** An environment: the clock advances by [step] seconds per reading, the
    probe, the separator and the transcriber have the given outcomes, and
    the pool hands every exception back as it is (the exceptions of the
    scenarios are plain ones, a class name and a message). *)
Definition scenario_env (step : Q) (probe : py_exc + (Z * Z))
    (sep : option py_exc) (tr : py_exc + whisper_result) : env := {|
  cuda_is_available := false;
  clock := fun n => (inject_Z (Z.of_nat n) * step)%Q;
  uuid4 := fun n => "1b4e28ba-2fa1-41d2-883f-0016d3cca42" +:+ pretty n;
  json_loads := scenario_loads;
  http_exception_str := fun s _ => pretty s;
  str_as_int := fun s => if String.eqb s "16000" then Some 16000 else None;
  from_file := fun _ => probe;
  separate_audio_file := fun _ _ _ => sep;
  save_audio := fun _ => None;
  load_model := fun _ _ => None;
  model_transcribe := fun _ _ => tr;
  async_result_get := fun e => e;
  config_error_str := fun _ => "1 validation error for TranscriptionConfig";
  response_error_str := "1 validation error for TranscriptionResponse";
  unpack_error_str :=
    fun _ => "TranscriptionConfig() argument after ** must be a mapping"
|}.

Definition five_seconds : py_exc + (Z * Z) := inr (5000, 16000).

Definition service_settings : Settings := default_settings "/srv/transcription".
Definition fresh_world : world := World ∅ [] [] 0 0.
Definition riff : list Byte.byte := [Byte.x52; Byte.x49; Byte.x46; Byte.x46].
Definition wav_upload : UploadFile := {| filename := Some "talk.wav"; content := riff |}.
Definition txt_upload : UploadFile := {| filename := Some "notes.txt"; content := riff |}.

(** Settings under which any non-empty upload is too large. *)
Definition tight_settings : Settings := {|
  debug := false;
  log_level := "INFO";
  max_file_size_mb := 0;
  supported_formats := ["wav"; "mp3"; "m4a"; "flac"; "ogg"];
  background_workers := 4;
  temp_dir := "/srv/transcription";
  request_timeout_sec := 300;
  separator_model := "htdemucs_ft"
|}.
Definition request_of (rid : string) : Request := {| state_request_id := Some rid |}.

(** The transcriber runs out of memory; separation succeeds. *)
Definition failing_transcriber_env : env :=
  scenario_env (1 # 4) five_seconds None (inl out_of_memory).

(** The separator runs out of memory; the transcriber hears the greeting. *)
Definition failing_separator_env : env :=
  scenario_env (1 # 4) five_seconds (Some out_of_memory) (inr hello_world).

(** Both stages succeed. *)
Definition healthy_env : env :=
  scenario_env (1 # 4) five_seconds None (inr hello_world).

(** The upload cannot be decoded. *)
Definition undecodable_env : env :=
  scenario_env (1 # 4) (inl bad_header) None (inr hello_world).

(** Both stages succeed and the clock advances by an eighth of a second
    per reading. *)
Definition brisk_env : env :=
  scenario_env (1 # 8) five_seconds None (inr hello_world).

(** The response of the worker to request [req-1] in that environment. *)
Definition brisk_response : TranscriptionResponse :=
  {| request_id := "req-1";
     duration_sec := 5;
     sample_rate := 16000;
     pipeline := {| separation := {[ "enables" := VBool true;
                                     "method" := VStr "demucs" ]};
                    transcription := {[ "model" := VStr "small" ]} |};
     segments := [ {| start := 0; end_ := 5; text := "hello world" |} ];
     response_text := "hello world";
     language := "en";
     timings_ms := {| load_ms := 125; separation_ms := 125;
                      transcription_ms := 375; total_ms := 0 |} |}.

(** Two configuration objects: the one of the test suite with a stray
    key, and one that spells a flag as a word. *)
Definition spanish_large : gmap string pyval :=
  {[ "language_hint" := VStr "es"; "model_size" := VStr "large";
     "comment" := VStr "from the test suite" ]}.

Definition spelled_flag : gmap string pyval :=
  {[ "enable_separation" := VStr "no" ]}.

(** The configurations those two objects construct. *)
Definition spanish_large_config : TranscriptionConfig :=
  {| language_hint := Some "es"; enable_separation := true; diarize := false;
     model_size := "large"; target_sr := 16000 |}.

Definition no_separation_config : TranscriptionConfig :=
  {| language_hint := Some "en"; enable_separation := false; diarize := false;
     model_size := "small"; target_sr := 16000 |}.

(** Where the upload of the first request of a fresh process is saved. *)
Definition first_upload (rid : string) : string :=
  upload_path service_settings healthy_env (request_of rid) "wav" fresh_world.

(** The world the worker sees for that request: the upload is in place. *)
Definition upload_saved (rid : string) : world :=
  World {[ first_upload rid ]} [] [] 0 1.

(** The events logged at a given level. *)
Definition events_at (l : severity) (w : world) : list string :=
  List.map event
    (List.filter (fun r => match level r, l with
                           | INFO, INFO | WARNING, WARNING | ERROR, ERROR => true
                           | _, _ => false
                           end) (logs w)).

(** The paths [save_audio] was asked to write. *)
Definition saved_paths (w : world) : list string :=
  omap (fun c => match c with CallSaveAudio p => Some p | _ => None end) (calls w).

(** The file the transcriber was run on, call by call. *)
Definition transcribed_paths (w : world) : list string :=
  omap (fun c => match c with CallTranscribe _ p => Some p | _ => None end) (calls w).

(** The correlation identifier an error body carries, at its top level or
    inside its [detail] object. *)
Definition body_request_id (b : pyval) : option pyval :=
  match b with
  | VDict d =>
      match d !! "request_id" with
      | Some v => Some v
      | None =>
          match d !! "detail" with
          | Some (VDict d') => d' !! "request_id"
          | _ => None
          end
      end
  | _ => None
  end.

(** Two requests served one after the other by a healthy process. *)
Definition after_alice : world :=
  snd (post_transcribe service_settings healthy_env (request_of "alice")
         wav_upload empty_config_text fresh_world).

Definition after_bob : world :=
  snd (post_transcribe service_settings healthy_env (request_of "bob")
         wav_upload empty_config_text after_alice).

(** ** Notions used in the further properties *)

(** Two worlds that differ at most in their logs: the same files, the same
    calls into the models, the same positions in the clock and uuid streams. *)
Definition same_resources (w w' : world) : Prop :=
  fs w' = fs w /\ calls w' = calls w /\ tick w' = tick w /\ drawn w' = drawn w.

(** Unfolding the worker down to the primitive effects, and splitting on
    every outcome of the environment. *)
Ltac unfold_worker :=
  unfold transcribe_audio, TranscriptionService.transcribe_audio,
    TranscriptionService.separate_vocals, TranscriptionService.time_time,
    make_response, try_except, bind, log, record_call, raise, write_file,
    unlink, ret, set_fs.

Ltac unfold_outcomes :=
  unfold transcription_outcome, stage2_input, separation_outcome, model_spec,
    vocals_path, resolved_device.

Ltac worker_cases := repeat (case_match; simplify_eq; simpl in * ).

(** The calls into the external models that one run of the worker makes,
    read off the outcomes of the separator and of [load_model]. *)
Definition expected_calls (st : Settings) (E : env) (audio_fp : string)
    (cfg : TranscriptionConfig) : list call :=
  CallSeparator (separator_model st) (resolved_device E) audio_fp
  :: match separate_audio_file E (separator_model st) (resolved_device E) audio_fp with
     | Some _ => []
     | None => [CallSaveAudio (vocals_path st)]
     end
  ++ CallLoadModel (model_spec cfg) "cuda"
  :: match load_model E (model_spec cfg) "cuda" with
     | Some _ => []
     | None => [CallTranscribe (model_spec cfg) (stage2_input st E audio_fp)]
     end.

(** What the handler does with an exception of the worker that is not an
    [HTTPException]: log it and raise a 500. *)
Definition processing_failed (rid : string) (x : py_exc) : M TranscriptionResponse :=
  log ERROR "Transcription failed"
    [("request_id", VStr rid); ("error", VStr (exc_str x));
     ("error_type", VStr (exc_type x))];;
  raise (HTTPException 500
           {[ "request_id" := VStr rid;
              "error" := VStr "processing_failed";
              "detail" := VStr (exc_str x) ]}).

(** The two [except] clauses of the handler. *)
Definition except_clauses (E : env) (rid : string) (e : exn)
  : option (M TranscriptionResponse) :=
  match e with
  | HTTPException _ _ => None
  | Raised _ =>
      Some (log ERROR "Transcription failed"
              [("request_id", VStr rid); ("error", VStr (str_exn E e));
               ("error_type", VStr (type_name e))];;
            raise (HTTPException 500
                     {[ "request_id" := VStr rid;
                        "error" := VStr "processing_failed";
                        "detail" := VStr (str_exn E e) ]}))
  end.

(** The worker inside the handler's [try]/[except]/[finally]. *)
Definition guarded_worker (st : Settings) (E : env) (a : string)
    (cfg : TranscriptionConfig) (rid : string) (duration : Q) (rate : Z)
  : M TranscriptionResponse :=
  try_finally
    (try_except (apply_async_get E (transcribe_audio st E a cfg rid duration rate))
       (except_clauses E rid))
    (unlink a).

(** What the handler raises when the probe of the saved upload fails. *)
Definition probe_error (e : py_exc) : exn :=
  if String.eqb (exc_type e) "CouldntDecodeError"
  then HTTPException 422 {[ "error" := VStr "Unable to decode";
                            "detail" := VStr (exc_str e) ]}
  else Raised e.

(** The body the global handler sends. *)
Definition internal_error_body (st : Settings) (request : Request) (e : py_exc) : pyval :=
  VDict {[ "request_id" := VStr (correlation_id request);
           "error" := VStr "Internal server error";
           "detail" := VStr (if debug st then exc_str e
                             else "An unexpected error occurred") ]}.

(** The body of a failed transcription. *)
Definition processing_failed_body (request : Request) (e : py_exc) : pyval :=
  VDict {[ "detail" :=
             VDict {[ "request_id" := VStr (correlation_id request);
                      "error" := VStr "processing_failed";
                      "detail" := VStr (exc_str e) ]} ]}.

(** Parsing the config form field: [json.loads], then the constructor. *)
Definition parse_config (E : env) (text : string) : py_exc + TranscriptionConfig :=
  match json_loads E text with
  | inl e => inl e
  | inr j => from_dict E j
  end.

(** The body of a rejected configuration. *)
Definition invalid_config_body (e : py_exc) : pyval :=
  VDict {[ "detail" :=
             VDict {[ "error" := VStr "invalid_config";
                      "detail" := VStr ("Invalid JSON configuration: " +:+ exc_str e) ]} ]}.

(** The k-th reading of the clock in a run that starts in world [w]. *)
Definition reading (E : env) (w : world) (k : nat) : Q := clock E (tick w + k).

(** The eight readings of a run of the worker do not decrease. *)
Definition clock_in_order (E : env) (w : world) : bool :=
  forallb (fun k => Qle_bool (reading E w k) (reading E w (S k))) (seq 0 7).

(** Whether a character occurs in a string. *)
Fixpoint occurs (c : ascii) (s : string) : bool :=
  match s with
  | EmptyString => false
  | String c' s' => (Ascii.eqb c' c || occurs c s')%bool
  end.

(** Whether a string consists of ASCII characters only. *)
Fixpoint ascii_only (s : string) : bool :=
  match s with
  | EmptyString => true
  | String c s' => (Nat.ltb (nat_of_ascii c) 128 && ascii_only s')%bool
  end.

(** An environment like [E] whose [json.loads] returns [j] on every text. *)
Definition loading (j : pyval) (E : env) : env := {|
  cuda_is_available := cuda_is_available E;
  clock := clock E;
  uuid4 := uuid4 E;
  json_loads := fun _ => inr j;
  http_exception_str := http_exception_str E;
  str_as_int := str_as_int E;
  from_file := from_file E;
  separate_audio_file := separate_audio_file E;
  save_audio := save_audio E;
  load_model := load_model E;
  model_transcribe := model_transcribe E;
  async_result_get := async_result_get E;
  config_error_str := config_error_str E;
  response_error_str := response_error_str E;
  unpack_error_str := unpack_error_str E
|}.

(** The config field is [{"language_hint": null}]. *)
Definition null_hint_env : env :=
  loading (VDict {[ "language_hint" := VNone ]}) healthy_env.

(** The configuration it constructs. *)
Definition null_hint_config : TranscriptionConfig :=
  {| language_hint := None; enable_separation := true; diarize := false;
     model_size := "small"; target_sr := 16000 |}.

(** The config field is [[]]. *)
Definition array_config_env : env := loading (VList []) healthy_env.

(** A world in which a file of another request exists. *)
Definition other_file : string := "/srv/transcription/other.wav".
Definition busy_world : world := World {[ other_file ]} [] [] 0 0.

(** An environment like [E] whose clock reads [c]. *)
Definition with_clock (c : nat -> Q) (E : env) : env := {|
  cuda_is_available := cuda_is_available E;
  clock := c;
  uuid4 := uuid4 E;
  json_loads := json_loads E;
  http_exception_str := http_exception_str E;
  str_as_int := str_as_int E;
  from_file := from_file E;
  separate_audio_file := separate_audio_file E;
  save_audio := save_audio E;
  load_model := load_model E;
  model_transcribe := model_transcribe E;
  async_result_get := async_result_get E;
  config_error_str := config_error_str E;
  response_error_str := response_error_str E;
  unpack_error_str := unpack_error_str E
|}.

(** The wall clock is set back by two seconds just before the worker takes
    its last reading; until then the readings are an eighth of a second
    apart. *)
Definition set_back_clock (n : nat) : Q :=
  if (n <? 7)%nat then (1000 + inject_Z (Z.of_nat n) * (1 # 8))%Q
  else (998 + (7 # 8))%Q.

Definition set_back_env : env := with_clock set_back_clock healthy_env.

(** The response of the worker to request [req-1] in that environment. *)
Definition set_back_response : TranscriptionResponse :=
  {| request_id := "req-1";
     duration_sec := 5;
     sample_rate := 16000;
     pipeline := {| separation := {[ "enables" := VBool true;
                                     "method" := VStr "demucs" ]};
                    transcription := {[ "model" := VStr "small" ]} |};
     segments := [ {| start := 0; end_ := 5; text := "hello world" |} ];
     response_text := "hello world";
     language := "en";
     timings_ms := {| load_ms := 125; separation_ms := 125;
                      transcription_ms := 375; total_ms := -1000 |} |}.

(** An environment like [E] whose pool hands exceptions back as [f] says. *)
Definition handing_back (f : py_exc -> py_exc) (E : env) : env := {|
  cuda_is_available := cuda_is_available E;
  clock := clock E;
  uuid4 := uuid4 E;
  json_loads := json_loads E;
  http_exception_str := http_exception_str E;
  str_as_int := str_as_int E;
  from_file := from_file E;
  separate_audio_file := separate_audio_file E;
  save_audio := save_audio E;
  load_model := load_model E;
  model_transcribe := model_transcribe E;
  async_result_get := f;
  config_error_str := config_error_str E;
  response_error_str := response_error_str E;
  unpack_error_str := unpack_error_str E
|}.

(** A failure of the transcriber that cannot be pickled: the exception
    holds the lock of the resource it reports. *)
Definition locked_cache : py_exc :=
  PyExc "CacheLockedError" "the model cache is locked by another process".

(** What the pool sends in its place: [MaybeEncodingError(exc, value)], whose
    message shows the [repr] of the wrapped exception object and of the
    pickling error. *)
Definition encoding_error : py_exc :=
  PyExc "MaybeEncodingError"
    ("Error sending result: "
     +:+ "'<multiprocessing.pool.ExceptionWithTraceback object at 0x7f3a5c1d2e50>'"
     +:+ ". Reason: 'TypeError(" +:+ quote
     +:+ "cannot pickle '_thread.lock' object" +:+ quote +:+ ")'").

(** The transcriber fails with that exception; separation succeeds. *)
Definition unsendable_env : env :=
  handing_back
    (fun e => if String.eqb (exc_type e) "CacheLockedError" then encoding_error else e)
    (scenario_env (1 # 4) five_seconds None (inl locked_cache)).

(** * Properties *)

(** ** Truncation *)

Lemma py_int_nonneg (x : Q) : (0 <= x)%Q -> 0 <= py_int x.
Proof.
  unfold Qle, py_int; simpl; intros H.
  apply Z.quot_pos; lia.
Qed.

Lemma py_int_small (x : Q) : (0 <= x)%Q -> (x < 1)%Q -> py_int x = 0.
Proof.
  unfold Qle, Qlt, py_int; simpl; intros H0 H1.
  apply Z.quot_small; lia.
Qed.

Lemma elapsed_nonneg (a b : Q) : (a <= b)%Q -> (0 <= b - a)%Q.
Proof.
  intros H. unfold Qminus. apply (proj1 (Qle_minus_iff a b)). exact H.
Qed.

(** ** The worker, step by step *)

Section worker_facts.
Variable st : Settings.
Variable E : env.

(** The total of a response is a thousand times the whole seconds elapsed
    between the first and the last reading of the clock. *)
Lemma transcribe_audio_total audio_fp cfg rid duration rate w r w' :
  transcribe_audio st E audio_fp cfg rid duration rate w = (Ok r, w') ->
  total_ms (timings_ms r) = py_int (final_reading E w - start_reading E w) * 1000.
Proof.
  unfold transcribe_audio, final_reading, start_reading.
  unfold TranscriptionService.transcribe_audio, TranscriptionService.separate_vocals,
    TranscriptionService.time_time, make_response, try_except, bind, log,
    record_call, raise, write_file, unlink, ret, set_fs.
  intros H.
  repeat (case_match; simplify_eq; simpl in * );
    repeat match goal with
           | |- context [ (?n + 7)%nat ] =>
               replace (n + 7)%nat with (S (S (S (S (S (S (S n))))))) by lia
           end; reflexivity.
Qed.

End worker_facts.

(** ** Timings *)

(** C10, as amended.  In every response the worker produces,
    [timings_ms.total] is the elapsed wall-clock time truncated to whole
    seconds and then multiplied by 1000, hence a multiple of 1000.  When the
    last reading of the clock is not before the first, it is non-negative,
    a run of under one second reports 0, and the total is then strictly
    below the sum of the three sub-timings as soon as that sum is positive. *)
Theorem total_is_whole_seconds st E audio_fp cfg rid duration rate w r
    (Hrun : fst (transcribe_audio st E audio_fp cfg rid duration rate w) = Ok r) :
  let elapsed := (final_reading E w - start_reading E w)%Q in
  let t := timings_ms r in
  total_ms t = 1000 * py_int elapsed /\
  (1000 | total_ms t) /\
  ((start_reading E w <= final_reading E w)%Q ->
   0 <= total_ms t /\
   ((elapsed < 1)%Q ->
    total_ms t = 0 /\
    (0 < load_ms t + separation_ms t + transcription_ms t ->
     total_ms t < load_ms t + separation_ms t + transcription_ms t))).
Proof.
  intros elapsed t. subst t.
  destruct (transcribe_audio st E audio_fp cfg rid duration rate w)
    as [res w'] eqn:Hpair.
  cbn [fst] in Hrun. subst res.
  pose proof (transcribe_audio_total _ _ _ _ _ _ _ _ _ _ Hpair) as Htot.
  fold elapsed in Htot.
  split; [lia |]. split; [exists (py_int elapsed); exact Htot |].
  intros Hclock.
  pose proof (elapsed_nonneg _ _ Hclock) as Hpos. fold elapsed in Hpos.
  pose proof (py_int_nonneg _ Hpos) as Hint.
  split; [lia |].
  intros Hshort. pose proof (py_int_small _ Hpos Hshort). lia.
Qed.

(** A run of 7/8 of a second, eight readings an eighth of a second apart:
    the total is 0 and the sub-timings add up to 625 ms. *)
Lemma total_is_whole_seconds_witness :
  fst (transcribe_audio service_settings brisk_env (first_upload "req-1")
         default_config "req-1" 5 16000 (upload_saved "req-1"))
    = Ok brisk_response /\
  total_ms (timings_ms brisk_response) = 0 /\
  total_ms (timings_ms brisk_response)
    < load_ms (timings_ms brisk_response)
      + separation_ms (timings_ms brisk_response)
      + transcription_ms (timings_ms brisk_response).
Proof.
  assert (Hrun : fst (transcribe_audio service_settings brisk_env
                        (first_upload "req-1") default_config "req-1" 5 16000
                        (upload_saved "req-1")) = Ok brisk_response)
    by (vm_compute; reflexivity).
  split; [exact Hrun |].
  destruct (total_is_whole_seconds service_settings brisk_env
              (first_upload "req-1") default_config "req-1" 5 16000
              (upload_saved "req-1") brisk_response Hrun) as (_ & _ & Hclock).
  destruct Hclock as (_ & Hshort); [vm_compute; discriminate |].
  destruct Hshort as (Hzero & Hbelow); [vm_compute; reflexivity |].
  split; [exact Hzero |].
  apply Hbelow. reflexivity.
Defined.

(** C10, as stated, fails: when the wall clock is set back during the run,
    the elapsed time is negative and so is the total, here minus one
    second, while the three sub-timings are those of a run of 7/8 of a
    second. *)
Lemma total_is_negative_after_clock_set_back :
  fst (transcribe_audio service_settings set_back_env (first_upload "req-1")
         default_config "req-1" 5 16000 (upload_saved "req-1"))
    = Ok set_back_response /\
  (final_reading set_back_env (upload_saved "req-1")
   < start_reading set_back_env (upload_saved "req-1"))%Q /\
  total_ms (timings_ms set_back_response) = -1000 /\
  ~ 0 <= total_ms (timings_ms set_back_response).
Proof.
  split; [vm_compute; reflexivity |].
  split; [vm_compute; reflexivity |].
  split; [reflexivity |].
  vm_compute. intros H. apply H. reflexivity.
Qed.

(** ** The handler around the worker *)

Section handler_facts.
Variable st : Settings.
Variable E : env.

(** For a request that passes validation and decoding, the handler comes
    down to the worker, run through the pool inside the handler's
    [try]/[except]/[finally] and started in the world where the upload is
    saved. *)
Lemma transcribe_prelude request file config w cfg ext size len_ms frame_rate :
  from_json_string E config w = (Ok cfg, w) ->
  validate_file_name_and_ext st file w = (Ok ext, w) ->
  validate_file_size st (content file) w = (Ok size, w) ->
  from_file E (upload_path st E request ext w) = inr (len_ms, frame_rate) ->
  exists h,
    transcribe st E request file config w
    = try_finally
        (try_except
           (apply_async_get E
              (transcribe_audio st E (upload_path st E request ext w) cfg
                 (correlation_id request) (inject_Z len_ms / 1000)%Q frame_rate)) h)
        (unlink (upload_path st E request ext w))
        (world_after_save st E request ext size w) /\
    forall x,
      h (Raised x)
      = Some (log ERROR "Transcription failed"
                [("request_id", VStr (correlation_id request));
                 ("error", VStr (exc_str x));
                 ("error_type", VStr (exc_type x))];;
              raise (HTTPException 500
                       {[ "request_id" := VStr (correlation_id request);
                          "error" := VStr "processing_failed";
                          "detail" := VStr (exc_str x) ]})).
Proof.
  intros Hconfig Hname Hsize Hprobe.
  eexists. split.
  - unfold transcribe. unfold bind at 1. rewrite Hconfig.
    unfold bind at 1. rewrite Hname.
    unfold bind at 1. rewrite Hsize.
    unfold bind at 1, log at 1.
    unfold bind at 1, uuid_uuid4 at 1. cbn [drawn].
    unfold bind at 1, write_file at 1.
    unfold bind at 1, get_audio_duration_and_sample_rate at 1.
    fold (correlation_id request).
    change (path_join (temp_dir st)
              (correlation_id request +:+ "_" +:+ uuid4 E (drawn w) +:+ "." +:+ ext))
      with (upload_path st E request ext w).
    rewrite Hprobe. unfold ret at 1.
    reflexivity.
  - intros x. reflexivity.
Qed.

(** When the transcription stage raises, so does the worker, with the same
    exception.  It removes no file; the vocals file, if separation wrote
    one, is left where it is. *)
Lemma worker_propagates_transcription_failure audio_fp cfg rid duration rate w e :
  transcription_outcome E cfg (stage2_input st E audio_fp) = inl e ->
  exists w',
    transcribe_audio st E audio_fp cfg rid duration rate w = (Raise (Raised e), w') /\
    fs w' = match separation_outcome st E audio_fp with
            | None => {[ vocals_path st ]} ∪ fs w
            | Some _ => fs w
            end.
Proof.
  unfold transcription_outcome, stage2_input, separation_outcome, model_spec,
    vocals_path, resolved_device.
  unfold transcribe_audio, TranscriptionService.transcribe_audio,
    TranscriptionService.separate_vocals, TranscriptionService.time_time,
    try_except, bind, log, record_call, raise, write_file, ret, set_fs.
  intros H.
  repeat (case_match; simplify_eq; simpl in * );
    eexists; (split; [reflexivity |]); reflexivity.
Qed.

(** The handler when the transcription stage raises: status 500 with the
    message of the exception that comes out of the pool, the upload
    released, the vocals file not. *)
Lemma failed_transcription_outcome request file config w
    cfg ext size len_ms frame_rate e :
  from_json_string E config w = (Ok cfg, w) ->
  validate_file_name_and_ext st file w = (Ok ext, w) ->
  validate_file_size st (content file) w = (Ok size, w) ->
  from_file E (upload_path st E request ext w) = inr (len_ms, frame_rate) ->
  transcription_outcome E cfg
    (stage2_input st E (upload_path st E request ext w)) = inl e ->
  exists w',
    transcribe st E request file config w
    = (Raise (HTTPException 500
                {[ "request_id" := VStr (correlation_id request);
                   "error" := VStr "processing_failed";
                   "detail" := VStr (exc_str (async_result_get E e)) ]}), w') /\
    fs w' = match separation_outcome st E (upload_path st E request ext w) with
            | None => {[ vocals_path st ]} ∪ ({[ upload_path st E request ext w ]} ∪ fs w)
            | Some _ => {[ upload_path st E request ext w ]} ∪ fs w
            end ∖ {[ upload_path st E request ext w ]}.
Proof.
  intros Hconfig Hname Hsize Hprobe Hfail.
  destruct (transcribe_prelude request file config w cfg ext size len_ms
              frame_rate Hconfig Hname Hsize Hprobe) as (h & -> & Hh).
  set (audio_fp := upload_path st E request ext w) in *.
  unfold try_finally, try_except, apply_async_get.
  destruct (worker_propagates_transcription_failure audio_fp cfg
              (correlation_id request) (inject_Z len_ms / 1000)%Q frame_rate
              (world_after_save st E request ext size w) e Hfail)
    as (w1 & -> & Hfs).
  rewrite Hh. unfold bind, log, raise, unlink. cbn [fs].
  assert (Hin : audio_fp ∈ fs w1).
  { rewrite Hfs. unfold world_after_save. cbn [fs]. fold audio_fp.
    destruct (separation_outcome st E audio_fp);
      repeat (apply elem_of_union; try (left; apply elem_of_singleton; reflexivity);
              right). }
  destruct (decide (audio_fp ∈ fs w1)) as [_ | Hout]; [| contradiction].
  eexists. split; [reflexivity |].
  unfold set_fs. cbn [fs]. rewrite Hfs. unfold world_after_save. cbn [fs].
  reflexivity.
Qed.

(** C4, as amended.  A request that passes validation and decoding and
    whose transcription stage raises an exception that the pool hands back
    to the handler as it is gets no response object: the handler raises an
    [HTTPException] with status 500, and the client receives status 500
    with a body that carries the correlation identifier of the request, the
    category [processing_failed] and the message of the original exception.
    The saved upload is gone afterwards. *)
Theorem transcription_failure_is_surfaced request file config w
    cfg ext size len_ms frame_rate e
    (Hconfig : from_json_string E config w = (Ok cfg, w))
    (Hname : validate_file_name_and_ext st file w = (Ok ext, w))
    (Hsize : validate_file_size st (content file) w = (Ok size, w))
    (Hprobe : from_file E (upload_path st E request ext w) = inr (len_ms, frame_rate))
    (Hfail : transcription_outcome E cfg
               (stage2_input st E (upload_path st E request ext w)) = inl e)
    (Hpool : async_result_get E e = e) :
  let detail : gmap string pyval :=
    {[ "request_id" := VStr (correlation_id request);
       "error" := VStr "processing_failed";
       "detail" := VStr (exc_str e) ]} in
  exists w',
    transcribe st E request file config w = (Raise (HTTPException 500 detail), w') /\
    post_transcribe st E request file config w =
      ({| status := 500; body := VDict {[ "detail" := VDict detail ]} |}, w') /\
    upload_path st E request ext w ∉ fs w'.
Proof.
  intros detail.
  destruct (failed_transcription_outcome request file config w cfg ext size
              len_ms frame_rate e Hconfig Hname Hsize Hprobe Hfail)
    as (w' & Hrun & Hfs).
  rewrite Hpool in Hrun.
  exists w'. split; [exact Hrun |]. split.
  - unfold post_transcribe. rewrite Hrun. reflexivity.
  - rewrite Hfs. intros Hx. apply elem_of_difference in Hx as [_ Hx].
    apply Hx, elem_of_singleton. reflexivity.
Qed.

(** The vocals file outlives a request whose separation succeeds and whose
    transcription raises. *)
Lemma failed_transcription_leaves_vocals request file config w
    cfg ext size len_ms frame_rate e :
  from_json_string E config w = (Ok cfg, w) ->
  validate_file_name_and_ext st file w = (Ok ext, w) ->
  validate_file_size st (content file) w = (Ok size, w) ->
  from_file E (upload_path st E request ext w) = inr (len_ms, frame_rate) ->
  separation_outcome st E (upload_path st E request ext w) = None ->
  transcription_outcome E cfg (vocals_path st) = inl e ->
  vocals_path st <> upload_path st E request ext w ->
  vocals_path st ∈ fs (snd (post_transcribe st E request file config w)).
Proof.
  intros Hconfig Hname Hsize Hprobe Hsep Hfail Hne.
  destruct (failed_transcription_outcome request file config w cfg ext size
              len_ms frame_rate e Hconfig Hname Hsize Hprobe) as (w' & Hrun & Hfs).
  { unfold stage2_input. rewrite Hsep. exact Hfail. }
  unfold post_transcribe. rewrite Hrun. cbn [snd].
  rewrite Hfs, Hsep. apply elem_of_difference. split.
  - apply elem_of_union. left. apply elem_of_singleton. reflexivity.
  - intros Hx. apply elem_of_singleton in Hx. contradiction.
Qed.

(** A request whose upload cannot be decoded is answered 422, and the saved
    upload stays. *)
Lemma undecodable_upload_stays request file config w cfg ext size msg :
  from_json_string E config w = (Ok cfg, w) ->
  validate_file_name_and_ext st file w = (Ok ext, w) ->
  validate_file_size st (content file) w = (Ok size, w) ->
  from_file E (upload_path st E request ext w)
    = inl (PyExc "CouldntDecodeError" msg) ->
  status (fst (post_transcribe st E request file config w)) = 422 /\
  upload_path st E request ext w ∈ fs (snd (post_transcribe st E request file config w)).
Proof.
  intros Hconfig Hname Hsize Hprobe.
  assert (Hrun : transcribe st E request file config w
                 = (Raise (HTTPException 422
                             {[ "error" := VStr "Unable to decode";
                                "detail" := VStr msg ]}),
                    world_after_save st E request ext size w)).
  { unfold transcribe. unfold bind at 1. rewrite Hconfig.
    unfold bind at 1. rewrite Hname.
    unfold bind at 1. rewrite Hsize.
    unfold bind at 1, log at 1.
    unfold bind at 1, uuid_uuid4 at 1. cbn [drawn].
    unfold bind at 1, write_file at 1.
    unfold bind at 1, get_audio_duration_and_sample_rate at 1.
    fold (correlation_id request).
    change (path_join (temp_dir st)
              (correlation_id request +:+ "_" +:+ uuid4 E (drawn w) +:+ "." +:+ ext))
      with (upload_path st E request ext w).
    rewrite Hprobe. reflexivity. }
  unfold post_transcribe. rewrite Hrun. split; [reflexivity |].
  unfold world_after_save. cbn [snd fs].
  apply elem_of_union. left. apply elem_of_singleton. reflexivity.
Qed.

End handler_facts.

(** The transcriber runs out of memory on request [req-42]; the pool hands
    the [RuntimeError] back as it is. *)
Lemma transcription_failure_is_surfaced_witness :
  async_result_get failing_transcriber_env out_of_memory = out_of_memory /\
  from_json_string failing_transcriber_env empty_config_text fresh_world
    = (Ok default_config, fresh_world) /\
  validate_file_name_and_ext service_settings wav_upload fresh_world
    = (Ok "wav", fresh_world) /\
  validate_file_size service_settings (content wav_upload) fresh_world
    = (Ok 4, fresh_world) /\
  exists w',
    post_transcribe service_settings failing_transcriber_env
      (request_of "req-42") wav_upload empty_config_text fresh_world =
    ({| status := 500;
        body := VDict {[ "detail" :=
                  VDict {[ "request_id" := VStr "req-42";
                           "error" := VStr "processing_failed";
                           "detail" := VStr "CUDA out of memory" ]} ]} |}, w').
Proof.
  assert (H1 : from_json_string failing_transcriber_env empty_config_text fresh_world
               = (Ok default_config, fresh_world)) by (vm_compute; reflexivity).
  assert (H2 : validate_file_name_and_ext service_settings wav_upload fresh_world
               = (Ok "wav", fresh_world)) by (vm_compute; reflexivity).
  assert (H3 : validate_file_size service_settings (content wav_upload) fresh_world
               = (Ok 4, fresh_world)) by (vm_compute; reflexivity).
  split; [reflexivity |].
  repeat (split; [assumption |]).
  destruct (transcription_failure_is_surfaced service_settings failing_transcriber_env
              (request_of "req-42") wav_upload empty_config_text fresh_world
              default_config "wav" 4 5000 16000 out_of_memory H1 H2 H3)
    as (w' & _ & Hpost & _).
  - vm_compute. reflexivity.
  - vm_compute. reflexivity.
  - reflexivity.
  - exists w'. exact Hpost.
Defined.

(** C4, as stated, fails: the transcriber raises an exception that cannot be
    pickled, the pool sends its own [MaybeEncodingError] in its place, and
    the detail of the 500 is the message of that error, in which the
    message of the original exception does not appear. *)
Lemma unsendable_failure_loses_its_detail :
  transcription_outcome unsendable_env default_config
    (stage2_input service_settings unsendable_env
       (upload_path service_settings unsendable_env (request_of "req-42") "wav"
          fresh_world))
    = inl locked_cache /\
  fst (post_transcribe service_settings unsendable_env (request_of "req-42")
         wav_upload empty_config_text fresh_world)
    = {| status := 500;
         body := processing_failed_body (request_of "req-42") encoding_error |} /\
  processing_failed_body (request_of "req-42") encoding_error
    <> processing_failed_body (request_of "req-42") locked_cache.
Proof.
  split; [vm_compute; reflexivity |].
  split; [vm_compute; reflexivity |].
  intros H.
  apply (f_equal (fun b => match b with
                           | VDict d =>
                               match d !! "detail" with
                               | Some (VDict d') => d' !! "detail"
                               | _ => None
                               end
                           | _ => None
                           end)) in H.
  vm_compute in H. discriminate H.
Qed.

(** ** The configuration model *)

Section config_facts.
Variable E : env.

(** What a successful construction says about one field. *)
Lemma field_Some {A} (d : gmap string pyval) key (validate : pyval -> option A)
    default x :
  field d key validate default = Some x ->
  match d !! key with
  | None => x = default
  | Some v => validate v = Some x
  end.
Proof.
  unfold field. destruct (d !! key); intros H; congruence.
Qed.

Lemma construct_inr d c :
  construct E d = inr c ->
  field d "language_hint" validate_optional_str (Some "en") = Some (language_hint c) /\
  field d "enable_separation" validate_bool true = Some (enable_separation c) /\
  field d "diarize" validate_bool false = Some (diarize c) /\
  field d "model_size" validate_str "small" = Some (model_size c) /\
  field d "target_sr" (validate_int E) 16000 = Some (target_sr c).
Proof.
  unfold construct. cbn [language_hint enable_separation diarize model_size
                         target_sr default_config].
  intros H. repeat case_match; simplify_eq. cbn. auto.
Qed.

(** A key that names no field does not matter. *)
Lemma construct_ignores_unknown d key v :
  key ∉ field_names -> construct E (<[key := v]> d) = construct E d.
Proof.
  intros Hkey. unfold construct, field, ValidationError.
  rewrite !lookup_insert_ne; [reflexivity | ..];
    intros ->; apply Hkey; unfold field_names; set_solver.
Qed.

(** Dumping a configuration and constructing it again gives it back. *)
Lemma construct_model_dump c : construct E (model_dump c) = inr c.
Proof.
  destruct c as [[l |] s z m t]; reflexivity.
Qed.

Lemma dom_model_dump c : dom (model_dump c) = list_to_set field_names.
Proof.
  unfold model_dump, field_names.
  rewrite !dom_insert_L, dom_singleton_L. cbn. set_solver.
Qed.

End config_facts.

(** C9, as amended.  For every configuration object that constructs
    successfully: a field absent from the input takes its documented
    default; a field given with a value of its declared JSON type is
    preserved exactly by parsing and re-serializing; the re-serialized
    object has the five fields and nothing else, keys that name no field
    being ignored; and parsing the re-serialized object gives the same
    configuration again. *)
Theorem config_round_trip E d c (Hvalid : construct E d = inr c) :
  (forall key, key ∈ field_names ->
     match d !! key with
     | None => model_dump c !! key = model_dump default_config !! key
     | Some v => has_declared_type key v = true -> model_dump c !! key = Some v
     end) /\
  dom (model_dump c) = list_to_set field_names /\
  (forall key v, key ∉ field_names -> construct E (<[key := v]> d) = inr c) /\
  construct E (model_dump c) = inr c /\
  (forall text w, json_loads E text = inr (VDict d) ->
                  from_json_string E text w = (Ok c, w)).
Proof.
  destruct (construct_inr E d c Hvalid) as (Hl & Hs & Hz & Hm & Ht).
  apply field_Some in Hl, Hs, Hz, Hm, Ht.
  split; [| split; [| split; [| split]]].
  - intros key Hkey. unfold field_names in Hkey.
    repeat (apply elem_of_cons in Hkey as [-> | Hkey]);
      [ .. | by apply elem_of_nil in Hkey ].
    + destruct (d !! "language_hint") as [v |]; [intros Hty | destruct c; cbn in *; subst; reflexivity].
      destruct v; try discriminate Hty; cbn in Hl; simplify_eq;
        destruct c; cbn in *; subst; reflexivity.
    + destruct (d !! "enable_separation") as [v |]; [intros Hty | destruct c; cbn in *; subst; reflexivity].
      destruct v; try discriminate Hty; cbn in Hs; simplify_eq;
        destruct c; cbn in *; subst; reflexivity.
    + destruct (d !! "diarize") as [v |]; [intros Hty | destruct c; cbn in *; subst; reflexivity].
      destruct v; try discriminate Hty; cbn in Hz; simplify_eq;
        destruct c; cbn in *; subst; reflexivity.
    + destruct (d !! "model_size") as [v |]; [intros Hty | destruct c; cbn in *; subst; reflexivity].
      destruct v; try discriminate Hty; cbn in Hm; simplify_eq;
        destruct c; cbn in *; subst; reflexivity.
    + destruct (d !! "target_sr") as [v |]; [intros Hty | destruct c; cbn in *; subst; reflexivity].
      destruct v; try discriminate Hty; cbn in Ht; simplify_eq;
        destruct c; cbn in *; subst; reflexivity.
  - apply dom_model_dump.
  - intros key v Hkey. rewrite construct_ignores_unknown by exact Hkey. exact Hvalid.
  - apply construct_model_dump.
  - intros text w Hloads.
    unfold from_json_string, try_except, from_dict.
    rewrite Hloads, Hvalid. reflexivity.
Qed.

(** The object of the test suite, with a stray key: the two given fields
    come back as given, and the dump parses to the same configuration. *)
Lemma config_round_trip_witness :
  construct healthy_env spanish_large = inr spanish_large_config /\
  model_dump spanish_large_config !! "model_size" = Some (VStr "large") /\
  model_dump spanish_large_config !! "target_sr" = Some (VInt 16000) /\
  construct healthy_env (model_dump spanish_large_config) = inr spanish_large_config.
Proof.
  assert (H : construct healthy_env spanish_large = inr spanish_large_config)
    by (vm_compute; reflexivity).
  split; [exact H |].
  destruct (config_round_trip healthy_env spanish_large spanish_large_config H)
    as (Hfields & _ & _ & Hagain & _).
  split; [| split; [| exact Hagain]].
  - assert (Hin : "model_size" ∈ field_names) by (unfold field_names; set_solver).
    pose proof (Hfields "model_size" Hin) as Hm.
    vm_compute in Hm. vm_compute. apply Hm. reflexivity.
  - assert (Hin : "target_sr" ∈ field_names) by (unfold field_names; set_solver).
    pose proof (Hfields "target_sr" Hin) as Ht.
    vm_compute in Ht. vm_compute. exact Ht.
Defined.

(** C9, as stated, fails: an object that spells a flag as a word constructs
    successfully, and what is re-serialized is the boolean, not the word. *)
Lemma spelled_flag_not_preserved :
  construct healthy_env spelled_flag = inr no_separation_config /\
  spelled_flag !! "enable_separation" = Some (VStr "no") /\
  model_dump no_separation_config !! "enable_separation" = Some (VBool false) /\
  ~ preserved_exactly spelled_flag no_separation_config.
Proof.
  split; [vm_compute; reflexivity |].
  split; [vm_compute; reflexivity |].
  split; [vm_compute; reflexivity |].
  intros H.
  specialize (H "enable_separation").
  assert (Hin : "enable_separation" ∈ field_names) by (unfold field_names; set_solver).
  specialize (H Hin). vm_compute in H. discriminate H.
Qed.

(** ** Release of temporary files *)

(** Releasing the same path twice in a row always ends in
    [FileNotFoundError]: the first release fails when the file is absent,
    and the second fails after the first has removed it. *)
Lemma unlink_twice (p : string) (w : world) :
  fst ((unlink p;; unlink p) w) = Raise (Raised (FileNotFoundError p)).
Proof.
  unfold bind, unlink.
  destruct (decide (p ∈ fs w)) as [Hin | Hout]; [| reflexivity].
  unfold set_fs; cbn [fs].
  destruct (decide (p ∈ fs w ∖ {[p]})) as [Hin' | Hout']; [| reflexivity].
  apply elem_of_difference in Hin' as [_ Hne].
  exfalso. apply Hne, elem_of_singleton. reflexivity.
Qed.

(** C8 (the code departs from it).  Releasing a path at which no file exists
    raises [FileNotFoundError]; in particular the second of two releases of
    the upload of a request, the first of which succeeds, raises. *)
Theorem release_of_absent_file_raises :
  unlink (first_upload "req-7") fresh_world
    = (Raise (Raised (FileNotFoundError (first_upload "req-7"))), fresh_world) /\
  fst (unlink (first_upload "req-7") (upload_saved "req-7")) = Ok tt /\
  fst ((unlink (first_upload "req-7");; unlink (first_upload "req-7"))
         (upload_saved "req-7"))
    = Raise (Raised (FileNotFoundError (first_upload "req-7"))).
Proof.
  split; [vm_compute; reflexivity |].
  split; [vm_compute; reflexivity |].
  apply unlink_twice.
Qed.

(** ** The degraded path *)

Section degraded_path.
Variable st : Settings.
Variable E : env.

(** The worker on the degraded path: the separator raises, the transcriber
    succeeds on the original upload.  The worker returns a response with the
    transcriber's text and segments, logs a warning, and removes the upload,
    since that is the file [vocals_fp] now names. *)
Lemma worker_degrades audio_fp cfg rid duration rate w e result lang :
  separation_outcome st E audio_fp = Some e ->
  transcription_outcome E cfg audio_fp = inr result ->
  language_hint cfg = Some lang ->
  audio_fp ∈ fs w ->
  exists r w',
    transcribe_audio st E audio_fp cfg rid duration rate w = (Ok r, w') /\
    response_text r = result_text result /\
    segments r = get_segments_from_whisper_results result /\
    fs w' = fs w ∖ {[audio_fp]} /\
    "Vocal separation failed, skipping vocal separation step." ∈ events_at WARNING w'.
Proof.
  unfold separation_outcome, transcription_outcome, model_spec, vocals_path,
    resolved_device.
  unfold transcribe_audio, TranscriptionService.transcribe_audio,
    TranscriptionService.separate_vocals, TranscriptionService.time_time,
    make_response, try_except, bind, log, record_call, raise, write_file,
    unlink, ret, set_fs.
  intros Hsep Htr Hlang Hin. rewrite Hlang in *.
  repeat (case_match; simplify_eq; simpl in * ); try contradiction;
    eexists _, _; (split; [reflexivity |]); simpl;
    (split; [reflexivity |]); (split; [reflexivity |]); (split; [reflexivity |]);
    unfold events_at; simpl;
    rewrite !List.filter_app, !List.map_app; simpl;
    apply elem_of_app; left; apply elem_of_app; right; apply list_elem_of_here.
Qed.

(** The request on the degraded path: the handler's final release finds the
    upload already gone, and the client receives status 500. *)
Lemma degraded_request_raises request file config w
    cfg ext size len_ms frame_rate e result lang :
  from_json_string E config w = (Ok cfg, w) ->
  validate_file_name_and_ext st file w = (Ok ext, w) ->
  validate_file_size st (content file) w = (Ok size, w) ->
  from_file E (upload_path st E request ext w) = inr (len_ms, frame_rate) ->
  separation_outcome st E (upload_path st E request ext w) = Some e ->
  transcription_outcome E cfg (upload_path st E request ext w) = inr result ->
  language_hint cfg = Some lang ->
  fst (transcribe st E request file config w)
    = Raise (Raised (FileNotFoundError (upload_path st E request ext w))) /\
  status (fst (post_transcribe st E request file config w)) = 500.
Proof.
  intros Hconfig Hname Hsize Hprobe Hsep Htr Hlang.
  assert (Hrun : fst (transcribe st E request file config w)
                 = Raise (Raised (FileNotFoundError (upload_path st E request ext w)))).
  { destruct (transcribe_prelude st E request file config w cfg ext size len_ms
                frame_rate Hconfig Hname Hsize Hprobe) as (h & -> & _).
    set (audio_fp := upload_path st E request ext w) in *.
    unfold try_finally, try_except, apply_async_get.
    destruct (worker_degrades audio_fp cfg (correlation_id request)
                (inject_Z len_ms / 1000)%Q frame_rate
                (world_after_save st E request ext size w) e result lang
                Hsep Htr Hlang) as (resp & w1 & -> & _ & _ & Hfs & _).
    { unfold world_after_save. cbn [fs]. fold audio_fp.
      apply elem_of_union. left. apply elem_of_singleton. reflexivity. }
    unfold unlink.
    destruct (decide (audio_fp ∈ fs w1)) as [Hin | _]; [| reflexivity].
    exfalso. rewrite Hfs in Hin.
    apply elem_of_difference in Hin as [_ Hne].
    apply Hne, elem_of_singleton. reflexivity. }
  split; [exact Hrun |].
  unfold post_transcribe.
  destruct (transcribe st E request file config w) as [r w'].
  cbn [fst] in Hrun. subst r. reflexivity.
Qed.

End degraded_path.

(** C1 (the code departs from it).  The separator raises on request [req-7]
    and the transcriber succeeds.  The worker logs the warning, transcribes
    the original upload and returns a response with the transcriber's text
    and segments; but it has removed the upload itself, the handler's final
    release of the same path raises [FileNotFoundError] in place of the
    return value, and the client receives status 500. *)
Theorem degraded_request_answers_500 :
  (exists r w',
     transcribe_audio service_settings failing_separator_env
       (first_upload "req-7") default_config "req-7" 5 16000
       (upload_saved "req-7") = (Ok r, w') /\
     response_text r = "hello world" /\
     segments r = [ {| start := 0; end_ := 5; text := "hello world" |} ] /\
     events_at WARNING w'
       = ["Vocal separation failed, skipping vocal separation step."] /\
     transcribed_paths w' = [first_upload "req-7"] /\
     elements (fs w') = []) /\
  fst (transcribe service_settings failing_separator_env
         (request_of "req-7") wav_upload empty_config_text fresh_world)
    = Raise (Raised (FileNotFoundError (first_upload "req-7"))) /\
  fst (post_transcribe service_settings failing_separator_env
         (request_of "req-7") wav_upload empty_config_text fresh_world)
    = {| status := 500;
         body := VDict {[ "request_id" := VStr "req-7";
                          "error" := VStr "Internal server error";
                          "detail" := VStr "An unexpected error occurred" ]} |}.
Proof.
  split.
  - eexists _, _. split; [vm_compute; reflexivity |].
    vm_compute. repeat split.
  - split; vm_compute; reflexivity.
Qed.

(** The same request when the separator succeeds: status 200. *)
Lemma healthy_request_answers_200 :
  status (fst (post_transcribe service_settings healthy_env
                 (request_of "req-7") wav_upload empty_config_text fresh_world))
    = 200 /\
  elements (fs (snd (post_transcribe service_settings healthy_env
                       (request_of "req-7") wav_upload empty_config_text
                       fresh_world))) = [].
Proof.
  split; vm_compute; reflexivity.
Qed.

(** ** The separation flag *)

(** Whatever the configuration says, the first thing the worker asks of the
    external models is a separation of the upload. *)
Lemma separator_always_invoked st E audio_fp cfg rid duration rate w :
  exists rest,
    calls (snd (transcribe_audio st E audio_fp cfg rid duration rate w))
    = (calls w ++ CallSeparator (separator_model st) (resolved_device E) audio_fp :: rest)%list.
Proof.
  unfold resolved_device.
  unfold transcribe_audio, TranscriptionService.transcribe_audio,
    TranscriptionService.separate_vocals, TranscriptionService.time_time,
    make_response, try_except, bind, log, record_call, raise, write_file,
    unlink, ret, set_fs.
  repeat (case_match; simplify_eq; simpl in * );
    rewrite <- ?app_assoc; simpl; eexists; reflexivity.
Qed.

(** C2 (the code departs from it).  A request whose configuration sets
    [enable_separation] to false: the configuration is parsed with the flag
    off, yet the separator is invoked on the upload, the vocals are saved,
    and the transcriber is run on the vocals file, not on the upload. *)
Theorem separation_runs_when_disabled :
  fst (from_json_string healthy_env no_separation_text fresh_world)
    = Ok no_separation_config /\
  calls (snd (post_transcribe service_settings healthy_env
                (request_of "req-9") wav_upload no_separation_text fresh_world))
    = [ CallSeparator "htdemucs_ft" "cpu" (first_upload "req-9");
        CallSaveAudio (vocals_path service_settings);
        CallLoadModel "small.en" "cuda";
        CallTranscribe "small.en" (vocals_path service_settings) ] /\
  vocals_path service_settings <> first_upload "req-9".
Proof.
  split; [vm_compute; reflexivity |].
  split; [vm_compute; reflexivity |].
  vm_compute. discriminate.
Qed.

(** ** Temporary files *)

(** C3 (the code departs from it).  Separation succeeds and the transcriber
    raises on request [req-42]: the client receives status 500 and the
    upload is gone, but the separated vocals file is still there.  (When the
    upload cannot be decoded, status 422, it is the upload that stays.) *)
Theorem vocals_file_survives_failed_transcription :
  status (fst (post_transcribe service_settings failing_transcriber_env
                 (request_of "req-42") wav_upload empty_config_text fresh_world))
    = 500 /\
  elements (fs (snd (post_transcribe service_settings failing_transcriber_env
                       (request_of "req-42") wav_upload empty_config_text
                       fresh_world)))
    = [vocals_path service_settings] /\
  status (fst (post_transcribe service_settings undecodable_env
                 (request_of "req-42") wav_upload empty_config_text fresh_world))
    = 422 /\
  elements (fs (snd (post_transcribe service_settings undecodable_env
                       (request_of "req-42") wav_upload empty_config_text
                       fresh_world)))
    = [first_upload "req-42"].
Proof.
  repeat split; vm_compute; reflexivity.
Qed.

(** The vocals are always saved at the same place. *)
Lemma separate_vocals_path st E audio_fp model device w p w' :
  TranscriptionService.separate_vocals st E audio_fp model device w = (Ok p, w') ->
  p = vocals_path st.
Proof.
  unfold TranscriptionService.separate_vocals, vocals_path, bind, record_call,
    raise, write_file, ret.
  intros H. repeat case_match; simplify_eq. reflexivity.
Qed.

Lemma append_length (s t : string) :
  String.length (s +:+ t) = (String.length s + String.length t)%nat.
Proof.
  induction s as [| c s IH]; [reflexivity |].
  change (String c s +:+ t) with (String c (s +:+ t)).
  cbn [String.length]. rewrite IH. reflexivity.
Qed.

Lemma append_cancel_r (s1 s2 t : string) : s1 +:+ t = s2 +:+ t -> s1 = s2.
Proof.
  revert s2. induction s1 as [| c s1 IH]; intros [| c' s2] H.
  - reflexivity.
  - apply (f_equal String.length) in H. rewrite !append_length in H.
    cbn [String.length] in H. lia.
  - apply (f_equal String.length) in H. rewrite !append_length in H.
    cbn [String.length] in H. lia.
  - change (String c (s1 +:+ t) = String c' (s2 +:+ t)) in H.
    injection H as -> H. f_equal. apply IH. exact H.
Qed.

(** Uploads that draw different uuids are saved at different paths. *)
Lemma upload_paths_differ st E request ext w1 w2 :
  uuid4 E (drawn w1) <> uuid4 E (drawn w2) ->
  upload_path st E request ext w1 <> upload_path st E request ext w2.
Proof.
  intros Hne Heq. apply Hne. unfold upload_path, path_join in Heq.
  set (rid := correlation_id request) in *.
  assert (Habs : forall u, is_absolute (rid +:+ "_" +:+ u +:+ "." +:+ ext)
                           = is_absolute (rid +:+ "_")).
  { intros u. destruct rid; reflexivity. }
  rewrite !Habs in Heq.
  destruct (is_absolute (rid +:+ "_")).
  - apply (inj (String.app rid)), (inj (String.app "_")) in Heq.
    apply append_cancel_r in Heq. exact Heq.
  - apply (inj (String.app (temp_dir st))), (inj (String.app "/")),
      (inj (String.app rid)), (inj (String.app "_")) in Heq.
    apply append_cancel_r in Heq. exact Heq.
Qed.

(** C5 (the code departs from it).  Two requests with different
    identifiers, served by one process: their uploads are saved at different
    paths, but the vocals of both are saved at the same path. *)
Theorem vocals_path_is_shared :
  saved_paths after_alice = [vocals_path service_settings] /\
  saved_paths after_bob = [vocals_path service_settings; vocals_path service_settings] /\
  upload_path service_settings healthy_env (request_of "alice") "wav" fresh_world
    <> upload_path service_settings healthy_env (request_of "bob") "wav" after_alice.
Proof.
  split; [vm_compute; reflexivity |].
  split; [vm_compute; reflexivity |].
  vm_compute. discriminate.
Qed.

(** ** The response *)

(** The pipeline metadata of every response of the worker. *)
Lemma response_pipeline st E audio_fp cfg rid duration rate w r w' :
  transcribe_audio st E audio_fp cfg rid duration rate w = (Ok r, w') ->
  separation (pipeline r)
    = {[ "enables" := VBool (enable_separation cfg); "method" := VStr "demucs" ]} /\
  transcription (pipeline r) = {[ "model" := VStr (model_size cfg) ]}.
Proof.
  unfold transcribe_audio, TranscriptionService.transcribe_audio,
    TranscriptionService.separate_vocals, TranscriptionService.time_time,
    make_response, try_except, bind, log, record_call, raise, write_file,
    unlink, ret, set_fs.
  intros H.
  repeat (case_match; simplify_eq; simpl in * ); split; reflexivity.
Qed.

(** C6 (the code departs from it).  The response the worker builds after a
    separation failure has no key [enabled] in its separation metadata; the
    requested flag is stored under the key [enables]. *)
Theorem separation_metadata_has_no_enabled_key :
  exists r w',
    transcribe_audio service_settings failing_separator_env
      (first_upload "req-7") default_config "req-7" 5 16000
      (upload_saved "req-7") = (Ok r, w') /\
    separation (pipeline r) !! "enabled" = None /\
    separation (pipeline r) !! "enables" = Some (VBool true) /\
    dom (separation (pipeline r)) = {[ "enables"; "method" ]}.
Proof.
  eexists _, _. split; [vm_compute; reflexivity |].
  repeat split; vm_compute; reflexivity.
Qed.

(** ** Error bodies *)

Section error_details.
Variable st : Settings.
Variable E : env.

(** None of the four checks that precede the worker puts a correlation
    identifier into the detail of the [HTTPException] it raises. *)
Lemma file_name_error_detail file w status d w' :
  validate_file_name_and_ext st file w = (Raise (HTTPException status d), w') ->
  status = 400 /\ d !! "request_id" = None.
Proof.
  unfold validate_file_name_and_ext, raise, ret.
  intros H. repeat case_match; simplify_eq; split; reflexivity.
Qed.

Lemma file_size_error_detail content w status d w' :
  validate_file_size st content w = (Raise (HTTPException status d), w') ->
  status = 413 /\ d !! "request_id" = None.
Proof.
  unfold validate_file_size, raise, ret.
  intros H. repeat case_match; simplify_eq; split; reflexivity.
Qed.

Lemma config_error_detail text w status d w' :
  from_json_string E text w = (Raise (HTTPException status d), w') ->
  status = 400 /\ d !! "request_id" = None.
Proof.
  unfold from_json_string, try_except, bind, log, raise, ret.
  intros H. repeat case_match; simplify_eq; split; reflexivity.
Qed.

Lemma decode_error_detail audio_path w status d w' :
  get_audio_duration_and_sample_rate E audio_path w
    = (Raise (HTTPException status d), w') ->
  status = 422 /\ d !! "request_id" = None.
Proof.
  unfold get_audio_duration_and_sample_rate, raise, ret.
  intros H. repeat case_match; simplify_eq; split; reflexivity.
Qed.

End error_details.

(** C7 (the code departs from it).  The bodies of the validation and decode
    errors of request [req-5] carry an error category and a detail message,
    and no correlation identifier: an unsupported extension (400), a
    malformed configuration (400), an upload over the size limit (413), an
    upload that cannot be decoded (422).  The body of a failed
    transcription (500) does carry it. *)
Theorem validation_errors_lack_request_id :
  fst (post_transcribe service_settings healthy_env (request_of "req-5")
         txt_upload empty_config_text fresh_world)
    = {| status := 400;
         body := VDict {[ "detail" := VDict
                   {[ "error" := VStr "invalid_format";
                      "detail" := VStr "Unsupported format: txt. Supported: ['wav', 'mp3', 'm4a', 'flac', 'ogg']" ]} ]} |} /\
  fst (post_transcribe service_settings healthy_env (request_of "req-5")
         wav_upload malformed_config_text fresh_world)
    = {| status := 400;
         body := VDict {[ "detail" := VDict
                   {[ "error" := VStr "invalid_config";
                      "detail" := VStr "Invalid JSON configuration: Expecting value: line 1 column 1 (char 0)" ]} ]} |} /\
  fst (post_transcribe service_settings undecodable_env (request_of "req-5")
         wav_upload empty_config_text fresh_world)
    = {| status := 422;
         body := VDict {[ "detail" := VDict
                   {[ "error" := VStr "Unable to decode";
                      "detail" := VStr "Decoding failed. ffmpeg returned error code: 1" ]} ]} |} /\
  fst (post_transcribe tight_settings healthy_env (request_of "req-5")
         wav_upload empty_config_text fresh_world)
    = {| status := 413;
         body := VDict {[ "detail" := VDict
                   {[ "error" := VStr "file_too_large";
                      "detail" := VStr "File size 0.0MB exceeds limit of 0MB" ]} ]} |} /\
  body_request_id
    (body (fst (post_transcribe service_settings healthy_env (request_of "req-5")
                  txt_upload empty_config_text fresh_world))) = None /\
  body_request_id
    (body (fst (post_transcribe tight_settings healthy_env (request_of "req-5")
                  wav_upload empty_config_text fresh_world))) = None /\
  body_request_id
    (body (fst (post_transcribe service_settings healthy_env (request_of "req-5")
                  wav_upload malformed_config_text fresh_world))) = None /\
  body_request_id
    (body (fst (post_transcribe service_settings undecodable_env (request_of "req-5")
                  wav_upload empty_config_text fresh_world))) = None /\
  body_request_id
    (body (fst (post_transcribe service_settings failing_transcriber_env
                  (request_of "req-5") wav_upload empty_config_text fresh_world)))
    = Some (VStr "req-5").
Proof.
  repeat split; vm_compute; reflexivity.
Qed.

(** * Further properties of the code *)

(** ** How each step of the handler can end *)

Lemma same_resources_refl w : same_resources w w.
Proof.
  repeat split.
Qed.

(** A configuration that does not construct fails with a [ValidationError]. *)
Lemma construct_inl E d e : construct E d = inl e -> exc_type e = "ValidationError".
Proof.
  unfold construct. intros H. repeat case_match; simplify_eq; reflexivity.
Qed.

(** Parsing the config field gives a configuration, or raises a 400 after
    logging, or lets another exception through; it touches no resource. *)
Lemma from_json_string_cases E text w :
  (exists c, from_json_string E text w = (Ok c, w)) \/
  (exists d w', from_json_string E text w = (Raise (HTTPException 400 d), w') /\
                same_resources w w' /\
                d !! "error" = Some (VStr "invalid_config")) \/
  (exists e, from_json_string E text w = (Raise (Raised e), w)).
Proof.
  unfold from_json_string, try_except, from_dict.
  destruct (json_loads E text) as [e | j].
  - unfold raise, bind, log. cbv beta iota. destruct (is_ValueError e).
    + right; left. eexists _, _. split; [reflexivity |]. split; [repeat split | reflexivity].
    + right; right. eexists. reflexivity.
  - destruct j; try (right; right; eexists; reflexivity).
    destruct (construct E d) as [e | c] eqn:Hc.
    + apply construct_inl in Hc. unfold raise, bind, log, is_ValueError.
      cbv beta iota. rewrite Hc.
      right; left. eexists _, _. split; [reflexivity |]. split; [repeat split | reflexivity].
    + left. eexists. reflexivity.
Qed.

(** The file-name check returns a supported format or raises a 400. *)
Lemma validate_file_name_cases st file w :
  (exists ext, validate_file_name_and_ext st file w = (Ok ext, w) /\
               ext ∈ supported_formats st) \/
  (exists d, validate_file_name_and_ext st file w = (Raise (HTTPException 400 d), w)).
Proof.
  unfold validate_file_name_and_ext, raise, ret.
  repeat case_match; try (right; eexists; reflexivity).
  left. eexists. split; [reflexivity |].
  match goal with H : bool_decide _ = true |- _ => apply bool_decide_eq_true in H; exact H end.
Qed.

(** The size check returns the length of the upload or raises a 413. *)
Lemma validate_file_size_cases st content w :
  (validate_file_size st content w = (Ok (Z.of_nat (List.length content)), w) /\
   Z.of_nat (List.length content) <= max_file_size_mb st * 1024 * 1024) \/
  (exists d, validate_file_size st content w = (Raise (HTTPException 413 d), w) /\
             max_file_size_mb st * 1024 * 1024 < Z.of_nat (List.length content)).
Proof.
  unfold validate_file_size, raise, ret.
  destruct (Z.gtb_spec (Z.of_nat (List.length content)) (max_file_size_mb st * 1024 * 1024)).
  - right. eexists. split; [reflexivity | lia].
  - left. split; [reflexivity | lia].
Qed.

(** ** How the worker can end *)

Section worker_more.
Variable st : Settings.
Variable E : env.

(** The worker never raises an [HTTPException]. *)
Lemma worker_raises_library_only audio_fp cfg rid duration rate w x w' :
  transcribe_audio st E audio_fp cfg rid duration rate w = (Raise x, w') ->
  exists e, x = Raised e.
Proof.
  unfold_worker. intros H. worker_cases; eexists; reflexivity.
Qed.

(** What a response of the worker says about the run that produced it. *)
Lemma worker_ok audio_fp cfg rid duration rate w r w' :
  transcribe_audio st E audio_fp cfg rid duration rate w = (Ok r, w') ->
  exists result lang,
    transcription_outcome E cfg (stage2_input st E audio_fp) = inr result /\
    language_hint cfg = Some lang /\
    request_id r = rid /\ duration_sec r = duration /\ sample_rate r = rate /\
    response_text r = result_text result /\
    segments r = get_segments_from_whisper_results result /\
    language r = lang /\
    stage2_input st E audio_fp ∈
      match separation_outcome st E audio_fp with
      | None => {[ vocals_path st ]} ∪ fs w
      | Some _ => fs w
      end /\
    fs w' = match separation_outcome st E audio_fp with
            | None => {[ vocals_path st ]} ∪ fs w
            | Some _ => fs w
            end ∖ {[ stage2_input st E audio_fp ]} /\
    drawn w' = drawn w.
Proof.
  unfold_outcomes. unfold_worker. intros H.
  worker_cases; eexists _, _; repeat split; try reflexivity; try assumption;
    apply elem_of_union; left; apply elem_of_singleton; reflexivity.
Qed.

(** A run of the worker that raises has removed no file. *)
Lemma worker_raise_fs audio_fp cfg rid duration rate w x w' :
  transcribe_audio st E audio_fp cfg rid duration rate w = (Raise x, w') ->
  fs w' = match separation_outcome st E audio_fp with
          | None => {[ vocals_path st ]} ∪ fs w
          | Some _ => fs w
          end /\ drawn w' = drawn w.
Proof.
  unfold_outcomes. unfold_worker. intros H.
  worker_cases; split; reflexivity.
Qed.

End worker_more.

Section worker_causes.
Variable st : Settings.
Variable E : env.

(** Why the worker raises: the transcription stage raised, or the response
    could not be built for want of a language, or the file to release was
    not there. *)
Lemma worker_raise_cause audio_fp cfg rid duration rate w e w' :
  transcribe_audio st E audio_fp cfg rid duration rate w = (Raise (Raised e), w') ->
  transcription_outcome E cfg (stage2_input st E audio_fp) = inl e \/
  (exists result,
     transcription_outcome E cfg (stage2_input st E audio_fp) = inr result /\
     language_hint cfg = None /\ exc_type e = "ValidationError") \/
  (exists result,
     transcription_outcome E cfg (stage2_input st E audio_fp) = inr result /\
     (stage2_input st E audio_fp ∉ fs w) /\
     (exists x, separation_outcome st E audio_fp = Some x)).
Proof.
  unfold_outcomes. unfold_worker. intros H.
  worker_cases;
    try (exfalso;
         match goal with
         | n : _ ∉ _ |- _ =>
             apply n; apply elem_of_union; left; apply elem_of_singleton; reflexivity
         end);
    eauto 10.
Qed.

End worker_causes.

(** ** The handler, check by check *)

Section handler_more.
Variable st : Settings.
Variable E : env.

(** The second [except] clause. *)
Lemma except_clauses_raised rid x :
  except_clauses E rid (Raised x) = Some (processing_failed rid x).
Proof.
  reflexivity.
Qed.

(** A request that passes the three checks: the upload is saved and
    probed, and the worker runs under the handler's guard. *)
Lemma transcribe_saved request file config w cfg ext size :
  from_json_string E config w = (Ok cfg, w) ->
  validate_file_name_and_ext st file w = (Ok ext, w) ->
  validate_file_size st (content file) w = (Ok size, w) ->
  transcribe st E request file config w
  = match from_file E (upload_path st E request ext w) with
    | inl e => (Raise (probe_error e), world_after_save st E request ext size w)
    | inr (len_ms, frame_rate) =>
        guarded_worker st E (upload_path st E request ext w) cfg
          (correlation_id request) (inject_Z len_ms / 1000)%Q frame_rate
          (world_after_save st E request ext size w)
    end.
Proof.
  intros Hc Hn Hs.
  unfold transcribe. unfold bind at 1. rewrite Hc.
  unfold bind at 1. rewrite Hn.
  unfold bind at 1. rewrite Hs.
  unfold bind at 1, log at 1.
  unfold bind at 1, uuid_uuid4 at 1. cbn [drawn].
  unfold bind at 1, write_file at 1.
  unfold bind at 1, get_audio_duration_and_sample_rate at 1.
  fold (correlation_id request).
  change (path_join (temp_dir st)
            (correlation_id request +:+ "_" +:+ uuid4 E (drawn w) +:+ "." +:+ ext))
    with (upload_path st E request ext w).
  destruct (from_file E (upload_path st E request ext w)) as [e | [len_ms frame_rate]].
  - unfold probe_error.
    destruct (String.eqb (exc_type e) "CouldntDecodeError"); reflexivity.
  - reflexivity.
Qed.

(** A request that fails one of the three checks is turned away with the
    resources of the world as they were. *)
Lemma transcribe_outcomes request file config w :
  (exists x w',
     transcribe st E request file config w = (Raise x, w') /\
     same_resources w w' /\
     ((exists d, x = HTTPException 400 d) \/
      (exists d, x = HTTPException 413 d) \/
      (exists e, x = Raised e))) \/
  (exists cfg ext,
     from_json_string E config w = (Ok cfg, w) /\
     validate_file_name_and_ext st file w = (Ok ext, w) /\
     validate_file_size st (content file) w
     = (Ok (Z.of_nat (List.length (content file))), w)).
Proof.
  destruct (from_json_string_cases E config w)
    as [[cfg Hc] | [(d & w1 & Hc & Hres & _) | [e Hc]]].
  2:{ left. exists (HTTPException 400 d), w1. split; [| split; [exact Hres | eauto]].
      unfold transcribe. unfold bind at 1. rewrite Hc. reflexivity. }
  2:{ left. exists (Raised e), w. split; [| split; [apply same_resources_refl | eauto]].
      unfold transcribe. unfold bind at 1. rewrite Hc. reflexivity. }
  destruct (validate_file_name_cases st file w) as [(ext & Hn & _) | [d Hn]].
  2:{ left. exists (HTTPException 400 d), w. split; [| split; [apply same_resources_refl | eauto]].
      unfold transcribe. unfold bind at 1. rewrite Hc.
      unfold bind at 1. rewrite Hn. reflexivity. }
  destruct (validate_file_size_cases st (content file) w) as [[Hs _] | (d & Hs & _)].
  2:{ left. exists (HTTPException 413 d), w. split; [| split; [apply same_resources_refl | eauto]].
      unfold transcribe. unfold bind at 1. rewrite Hc.
      unfold bind at 1. rewrite Hn.
      unfold bind at 1. rewrite Hs. reflexivity. }
  right. exists cfg, ext. auto.
Qed.

End handler_more.

Section post_facts.
Variable st : Settings.
Variable E : env.

(** How the three kinds of outcome of the handler reach the client. *)
Lemma post_transcribe_ok request file config w r w' :
  transcribe st E request file config w = (Ok r, w') ->
  post_transcribe st E request file config w
  = ({| status := 200; body := response_json r |}, w').
Proof.
  intros H. unfold post_transcribe. rewrite H. reflexivity.
Qed.

Lemma post_transcribe_http request file config w s d w' :
  transcribe st E request file config w = (Raise (HTTPException s d), w') ->
  post_transcribe st E request file config w
  = ({| status := s; body := VDict {[ "detail" := VDict d ]} |}, w').
Proof.
  intros H. unfold post_transcribe. rewrite H. reflexivity.
Qed.

Lemma post_transcribe_raised request file config w e w' :
  transcribe st E request file config w = (Raise (Raised e), w') ->
  fst (post_transcribe st E request file config w)
  = {| status := 500; body := internal_error_body st request e |} /\
  same_resources w' (snd (post_transcribe st E request file config w)).
Proof.
  intros H. unfold post_transcribe. rewrite H.
  unfold global_exception_handler, bind, log, ret. cbn [fst snd].
  split; [reflexivity | repeat split].
Qed.

(** The guarded worker ends in one of three ways: the response is returned
    and the upload released; the response is lost because the upload is
    already gone; the exception of the worker, as it comes out of the pool,
    becomes a 500. *)
Lemma pipeline_outcomes a cfg rid duration rate w0 :
  a ∈ fs w0 ->
  (exists r w1,
     transcribe_audio st E a cfg rid duration rate w0 = (Ok r, w1) /\ a ∈ fs w1 /\
     guarded_worker st E a cfg rid duration rate w0
     = (Ok r, set_fs (fun s => s ∖ {[a]}) w1)) \/
  (exists r w1,
     transcribe_audio st E a cfg rid duration rate w0 = (Ok r, w1) /\ (a ∉ fs w1) /\
     guarded_worker st E a cfg rid duration rate w0
     = (Raise (Raised (FileNotFoundError a)), w1)) \/
  (exists e w1,
     transcribe_audio st E a cfg rid duration rate w0 = (Raise (Raised e), w1) /\
     fst (guarded_worker st E a cfg rid duration rate w0)
     = Raise (HTTPException 500
                {[ "request_id" := VStr rid;
                   "error" := VStr "processing_failed";
                   "detail" := VStr (exc_str (async_result_get E e)) ]}) /\
     fs (snd (guarded_worker st E a cfg rid duration rate w0)) = fs w1 ∖ {[a]} /\
     calls (snd (guarded_worker st E a cfg rid duration rate w0)) = calls w1 /\
     drawn (snd (guarded_worker st E a cfg rid duration rate w0)) = drawn w1).
Proof.
  intros Hin. unfold guarded_worker.
  unfold try_finally, try_except, apply_async_get.
  destruct (transcribe_audio st E a cfg rid duration rate w0) as [[r | x] w1] eqn:Hw.
  - unfold unlink. destruct (decide (a ∈ fs w1)) as [Hin1 | Hout1].
    + left. exists r, w1. auto.
    + right; left. exists r, w1. auto.
  - right; right.
    destruct (worker_raises_library_only _ _ _ _ _ _ _ _ _ _ Hw) as [e ->].
    destruct (worker_raise_fs _ _ _ _ _ _ _ _ _ _ Hw) as [Hfs _].
    exists e, w1. split; [reflexivity |].
    rewrite except_clauses_raised.
    unfold processing_failed, bind, log, raise, unlink. cbn [fs].
    assert (Hin1 : a ∈ fs w1).
    { rewrite Hfs. destruct (separation_outcome st E a); [exact Hin |].
      apply elem_of_union. right. exact Hin. }
    destruct (decide (a ∈ fs w1)) as [_ | Hout]; [| contradiction].
    cbn [fst snd]. unfold set_fs. cbn [fs calls drawn]. auto.
Qed.

End post_facts.

(** ** Every outcome of a request *)

Section endpoint.
Variable st : Settings.
Variable E : env.

(** The same for an [HTTPException], stated on the components. *)
Lemma post_transcribe_http_fst request file config w s d :
  fst (transcribe st E request file config w) = Raise (HTTPException s d) ->
  fst (post_transcribe st E request file config w)
  = {| status := s; body := VDict {[ "detail" := VDict d ]} |} /\
  snd (post_transcribe st E request file config w)
  = snd (transcribe st E request file config w).
Proof.
  unfold post_transcribe.
  destruct (transcribe st E request file config w) as [res w'].
  cbn [fst snd]. intros ->. split; reflexivity.
Qed.

(** Every way a request that passes the three checks can end. *)
Lemma saved_request_outcomes request file config w cfg ext size :
  from_json_string E config w = (Ok cfg, w) ->
  validate_file_name_and_ext st file w = (Ok ext, w) ->
  validate_file_size st (content file) w = (Ok size, w) ->
  let out := post_transcribe st E request file config w in
  let a := upload_path st E request ext w in
  let v := vocals_path st in
  drawn (snd out) = S (drawn w) /\
  ((exists e,
      from_file E a = inl e /\
      status (fst out)
      = (if String.eqb (exc_type e) "CouldntDecodeError" then 422 else 500) /\
      fs (snd out) = {[a]} ∪ fs w /\ calls (snd out) = calls w) \/
   (exists len_ms frame_rate,
      from_file E a = inr (len_ms, frame_rate) /\
      ((exists r result,
          fst out = {| status := 200; body := response_json r |} /\
          separation_outcome st E a = None /\ v <> a /\
          transcription_outcome E cfg v = inr result /\
          language_hint cfg = Some (language r) /\
          response_text r = result_text result /\
          segments r = get_segments_from_whisper_results result /\
          request_id r = correlation_id request /\
          duration_sec r = (inject_Z len_ms / 1000)%Q /\
          sample_rate r = frame_rate /\
          fs (snd out) = (fs w ∖ {[v]}) ∖ {[a]}) \/
       (exists e result lang,
          separation_outcome st E a = Some e /\
          transcription_outcome E cfg a = inr result /\
          language_hint cfg = Some lang /\
          fst out = {| status := 500;
                       body := internal_error_body st request (FileNotFoundError a) |} /\
          fs (snd out) = fs w ∖ {[a]}) \/
       (v = a /\ separation_outcome st E a = None /\
        status (fst out) = 500 /\ fs (snd out) = fs w ∖ {[a]}) \/
       (exists e,
          (transcription_outcome E cfg (stage2_input st E a) = inl e \/
           exists result,
             transcription_outcome E cfg (stage2_input st E a) = inr result /\
             language_hint cfg = None) /\
          fst out = {| status := 500;
                       body := processing_failed_body request (async_result_get E e) |} /\
          fs (snd out) = match separation_outcome st E a with
                         | None => ({[v]} ∪ fs w) ∖ {[a]}
                         | Some _ => fs w ∖ {[a]}
                         end)))).
Proof.
  intros Hc Hn Hs. cbv zeta.
  pose proof (transcribe_saved st E request file config w cfg ext size Hc Hn Hs) as Ht.
  set (a := upload_path st E request ext w) in *.
  set (w0 := world_after_save st E request ext size w) in *.
  assert (Hfs0 : fs w0 = {[a]} ∪ fs w) by reflexivity.
  assert (Hcalls0 : calls w0 = calls w) by reflexivity.
  assert (Hdrawn0 : drawn w0 = S (drawn w)) by reflexivity.
  destruct (from_file E a) as [e | [len_ms frame_rate]] eqn:Hp.
  { unfold probe_error in Ht.
    destruct (String.eqb (exc_type e) "CouldntDecodeError") eqn:Hk.
    - rewrite (post_transcribe_http _ _ _ _ _ _ _ _ _ Ht). cbn [fst snd status].
      split; [exact Hdrawn0 |]. left. exists e. rewrite Hk. auto.
    - destruct (post_transcribe_raised _ _ _ _ _ _ _ _ Ht) as [-> Hsame].
      cbn [status]. destruct Hsame as (Hf & Hcl & _ & Hd).
      split; [congruence |]. left. exists e. rewrite Hk.
      split; [reflexivity |]. split; [reflexivity |]. split; congruence. }
  assert (Hin : a ∈ fs w0).
  { rewrite Hfs0. apply elem_of_union. left. apply elem_of_singleton. reflexivity. }
  destruct (pipeline_outcomes st E a cfg (correlation_id request)
              (inject_Z len_ms / 1000)%Q frame_rate w0 Hin)
    as [(r & w1 & Hw & Hin1 & Hrun) | [(r & w1 & Hw & Hout1 & Hrun)
        | (e & w1 & Hw & Hres & Hfs & Hcl & Hd)]].
  - (* 200 *)
    rewrite Hrun in Ht.
    rewrite (post_transcribe_ok _ _ _ _ _ _ _ _ Ht). cbn [fst snd].
    destruct (worker_ok _ _ _ _ _ _ _ _ _ _ Hw)
      as (result & lang & Htr & Hlang & Hrid & Hdur & Hrate & Htext & Hsegs & Hl
          & _ & Hfs1 & Hd1).
    unfold set_fs. cbn [fs drawn].
    split; [congruence |]. right. exists len_ms, frame_rate. split; [reflexivity |].
    left. exists r, result. split; [reflexivity |].
    unfold stage2_input in Hfs1, Htr.
    destruct (separation_outcome st E a) as [e |].
    + exfalso. rewrite Hfs1 in Hin1.
      apply elem_of_difference in Hin1 as [_ Hne].
      apply Hne, elem_of_singleton. reflexivity.
    + split; [reflexivity |].
      assert (Hne : vocals_path st <> a).
      { intros Heq. rewrite Hfs1, Heq in Hin1.
        apply elem_of_difference in Hin1 as [_ Hne].
        apply Hne, elem_of_singleton. reflexivity. }
      split; [exact Hne |]. split; [exact Htr |].
      split; [congruence |]. split; [exact Htext |]. split; [exact Hsegs |].
      split; [exact Hrid |]. split; [exact Hdur |]. split; [exact Hrate |].
      rewrite Hfs1, Hfs0. apply set_eq. intros q.
      rewrite !elem_of_difference, !elem_of_union, !elem_of_singleton.
      split; [intros [[[-> | [-> | Hq1]] Hv] Ha]; try contradiction; auto | tauto].
  - (* the final release raises *)
    rewrite Hrun in Ht.
    destruct (post_transcribe_raised _ _ _ _ _ _ _ _ Ht) as [Hfst Hsame].
    rewrite Hfst. cbn [status]. destruct Hsame as (Hf & _ & _ & Hd).
    destruct (worker_ok _ _ _ _ _ _ _ _ _ _ Hw)
      as (result & lang & Htr & Hlang & _ & _ & _ & _ & _ & _ & _ & Hfs1 & Hd1).
    split; [congruence |]. right. exists len_ms, frame_rate. split; [reflexivity |].
    right.
    unfold stage2_input in Hfs1, Htr.
    destruct (separation_outcome st E a) as [e |].
    + left. exists e, result, lang. split; [reflexivity |]. split; [exact Htr |].
      split; [exact Hlang |]. split; [reflexivity |].
      rewrite Hf, Hfs1, Hfs0. apply set_eq. intros q.
      rewrite !elem_of_difference, !elem_of_union, !elem_of_singleton. tauto.
    + right; left.
      assert (Heq : vocals_path st = a).
      { destruct (decide (vocals_path st = a)) as [Heq | Hne]; [exact Heq |].
        exfalso. apply Hout1. rewrite Hfs1, Hfs0.
        rewrite !elem_of_difference, !elem_of_union, !elem_of_singleton.
        split; [auto | congruence]. }
      split; [exact Heq |]. split; [reflexivity |]. split; [reflexivity |].
      rewrite Hf, Hfs1, Hfs0, Heq. apply set_eq. intros q.
      rewrite !elem_of_difference, !elem_of_union, !elem_of_singleton. tauto.
  - (* the worker raises *)
    rewrite <- Ht in Hres, Hfs, Hcl, Hd.
    destruct (post_transcribe_http_fst _ _ _ _ _ _ Hres) as [Hfst Hsnd].
    rewrite Hfst, Hsnd. cbn [status].
    destruct (worker_raise_fs _ _ _ _ _ _ _ _ _ _ Hw) as [Hfs1 Hd1].
    split; [congruence |]. right. exists len_ms, frame_rate. split; [reflexivity |].
    right; right; right. exists e. split.
    { destruct (worker_raise_cause _ _ _ _ _ _ _ _ _ _ Hw)
        as [Hcause | [(result & Htr & Hlang & _) | (result & _ & Hout & x & Hx)]].
      - left. exact Hcause.
      - right. exists result. auto.
      - exfalso. apply Hout. unfold stage2_input. rewrite Hx. exact Hin. }
    split; [reflexivity |].
    rewrite Hfs, Hfs1, Hfs0.
    destruct (separation_outcome st E a); apply set_eq; intros q;
      rewrite !elem_of_difference, !elem_of_union, !elem_of_singleton; tauto.
Qed.

End endpoint.

(** ** The endpoint *)

Section endpoint_theorems.
Variable st : Settings.
Variable E : env.

(** What a 200 says about the configuration. *)
Lemma ok_response_facts request file config w :
  status (fst (post_transcribe st E request file config w)) = 200 ->
  exists cfg, from_json_string E config w = (Ok cfg, w) /\
              language_hint cfg <> None.
Proof.
  intros Hstatus.
  destruct (transcribe_outcomes st E request file config w)
    as [(x & w' & Ht & Hres & Hx) | (cfg & ext & Hc & Hn & Hs)].
  - exfalso. destruct Hx as [[d ->] | [[d ->] | [e ->]]].
    + rewrite (post_transcribe_http _ _ _ _ _ _ _ _ _ Ht) in Hstatus. discriminate.
    + rewrite (post_transcribe_http _ _ _ _ _ _ _ _ _ Ht) in Hstatus. discriminate.
    + destruct (post_transcribe_raised _ _ _ _ _ _ _ _ Ht) as [Hfst _].
      rewrite Hfst in Hstatus. discriminate.
  - exists cfg. split; [exact Hc |].
    destruct (saved_request_outcomes st E request file config w cfg ext _ Hc Hn Hs)
      as (_ & [(e & _ & Hst & _) | (len_ms & frame_rate & _ & Hcase)]).
    + exfalso. rewrite Hst in Hstatus.
      destruct (String.eqb (exc_type e) "CouldntDecodeError"); discriminate.
    + destruct Hcase as [(r & result & _ & _ & _ & _ & Hl & _)
                         | [(e & result & lang & _ & _ & _ & Hst & _)
                         | [(_ & _ & Hst & _) | (e & _ & Hst & _)]]];
        try (exfalso; rewrite Hst in Hstatus; discriminate).
      rewrite Hl. discriminate.
Qed.

(** X1.  The endpoint answers with one of five statuses. *)
Theorem only_five_statuses request file config w :
  let s := status (fst (post_transcribe st E request file config w)) in
  s = 200 \/ s = 400 \/ s = 413 \/ s = 422 \/ s = 500.
Proof.
  cbv zeta.
  destruct (transcribe_outcomes st E request file config w)
    as [(x & w' & Ht & _ & Hx) | (cfg & ext & Hc & Hn & Hs)].
  - destruct Hx as [[d ->] | [[d ->] | [e ->]]].
    + rewrite (post_transcribe_http _ _ _ _ _ _ _ _ _ Ht). cbn. auto.
    + rewrite (post_transcribe_http _ _ _ _ _ _ _ _ _ Ht). cbn. auto.
    + destruct (post_transcribe_raised _ _ _ _ _ _ _ _ Ht) as [-> _]. cbn. auto 6.
  - destruct (saved_request_outcomes st E request file config w cfg ext _ Hc Hn Hs)
      as (_ & [(e & _ & -> & _) | (len_ms & frame_rate & _ & Hcase)]).
    + destruct (String.eqb (exc_type e) "CouldntDecodeError"); auto 6.
    + destruct Hcase as [(r & result & -> & _) | [(e & result & lang & _ & _ & _ & -> & _)
                         | [(_ & _ & -> & _) | (e & _ & -> & _)]]]; cbn; auto 6.
Qed.

(** X2.  A request answered 400 or 413 has written no file, invoked no
    model, read no clock and drawn no uuid. *)
Theorem rejected_request_touches_nothing request file config w
    (Hstatus : status (fst (post_transcribe st E request file config w)) = 400 \/
               status (fst (post_transcribe st E request file config w)) = 413) :
  same_resources w (snd (post_transcribe st E request file config w)).
Proof.
  destruct (transcribe_outcomes st E request file config w)
    as [(x & w' & Ht & Hres & Hx) | (cfg & ext & Hc & Hn & Hs)].
  - destruct Hx as [[d ->] | [[d ->] | [e ->]]].
    + rewrite (post_transcribe_http _ _ _ _ _ _ _ _ _ Ht). exact Hres.
    + rewrite (post_transcribe_http _ _ _ _ _ _ _ _ _ Ht). exact Hres.
    + destruct (post_transcribe_raised _ _ _ _ _ _ _ _ Ht) as [Hfst _].
      rewrite Hfst in Hstatus. cbn in Hstatus. destruct Hstatus; discriminate.
  - exfalso.
    destruct (saved_request_outcomes st E request file config w cfg ext _ Hc Hn Hs)
      as (_ & [(e & _ & Hst & _) | (len_ms & frame_rate & _ & Hcase)]).
    + rewrite Hst in Hstatus.
      destruct (String.eqb (exc_type e) "CouldntDecodeError");
        destruct Hstatus; discriminate.
    + destruct Hcase as [(r & result & Hst & _) | [(e & result & lang & _ & _ & _ & Hst & _)
                         | [(_ & _ & Hst & _) | (e & _ & Hst & _)]]];
        rewrite Hst in Hstatus; cbn in Hstatus; destruct Hstatus; discriminate.
Qed.

(** X3.  A request answered 200 passed the three checks, its separation
    succeeded, the body is a response whose text and segments are what the
    transcriber returned on the vocals file, and neither the upload nor the
    vocals file exists afterwards. *)
Theorem ok_response_means_clean request file config w
    (Hstatus : status (fst (post_transcribe st E request file config w)) = 200) :
  exists cfg ext r result,
    from_json_string E config w = (Ok cfg, w) /\
    validate_file_name_and_ext st file w = (Ok ext, w) /\
    body (fst (post_transcribe st E request file config w)) = response_json r /\
    separation_outcome st E (upload_path st E request ext w) = None /\
    transcription_outcome E cfg (vocals_path st) = inr result /\
    response_text r = result_text result /\
    segments r = get_segments_from_whisper_results result /\
    (upload_path st E request ext w
       ∉ fs (snd (post_transcribe st E request file config w))) /\
    (vocals_path st ∉ fs (snd (post_transcribe st E request file config w))).
Proof.
  destruct (transcribe_outcomes st E request file config w)
    as [(x & w' & Ht & Hres & Hx) | (cfg & ext & Hc & Hn & Hs)].
  - exfalso. destruct Hx as [[d ->] | [[d ->] | [e ->]]].
    + rewrite (post_transcribe_http _ _ _ _ _ _ _ _ _ Ht) in Hstatus. discriminate.
    + rewrite (post_transcribe_http _ _ _ _ _ _ _ _ _ Ht) in Hstatus. discriminate.
    + destruct (post_transcribe_raised _ _ _ _ _ _ _ _ Ht) as [Hfst _].
      rewrite Hfst in Hstatus. discriminate.
  - destruct (saved_request_outcomes st E request file config w cfg ext _ Hc Hn Hs)
      as (_ & [(e & _ & Hst & _) | (len_ms & frame_rate & _ & Hcase)]).
    + exfalso. rewrite Hst in Hstatus.
      destruct (String.eqb (exc_type e) "CouldntDecodeError"); discriminate.
    + destruct Hcase as [(r & result & Hfst & Hsep & Hne & Htr & _ & Htext & Hsegs
                            & _ & _ & _ & Hfs)
                         | [(e & result & lang & _ & _ & _ & Hst & _)
                         | [(_ & _ & Hst & _) | (e & _ & Hst & _)]]];
        try (exfalso; rewrite Hst in Hstatus; discriminate).
      exists cfg, ext, r, result. rewrite Hfst, Hfs. cbn [body].
      repeat (split; [assumption || reflexivity |]).
      rewrite !elem_of_difference, !elem_of_singleton. tauto.
Qed.

(** X4.  A request leaves every file alone that is neither the vocals file
    nor a place where its upload can be saved. *)
Theorem other_files_are_untouched request file config w p
    (Hvocals : p <> vocals_path st)
    (Hupload : forall ext, p <> upload_path st E request ext w) :
  p ∈ fs (snd (post_transcribe st E request file config w)) <-> p ∈ fs w.
Proof.
  destruct (transcribe_outcomes st E request file config w)
    as [(x & w' & Ht & Hres & Hx) | (cfg & ext & Hc & Hn & Hs)].
  - assert (Hfs : fs (snd (post_transcribe st E request file config w)) = fs w).
    { destruct Hx as [[d ->] | [[d ->] | [e ->]]].
      + rewrite (post_transcribe_http _ _ _ _ _ _ _ _ _ Ht). apply Hres.
      + rewrite (post_transcribe_http _ _ _ _ _ _ _ _ _ Ht). apply Hres.
      + destruct (post_transcribe_raised _ _ _ _ _ _ _ _ Ht) as [_ (Hf & _)].
        rewrite Hf. apply Hres. }
    rewrite Hfs. reflexivity.
  - specialize (Hupload ext).
    destruct (saved_request_outcomes st E request file config w cfg ext _ Hc Hn Hs)
      as (_ & [(e & _ & _ & Hfs & _) | (len_ms & frame_rate & _ & Hcase)]).
    + rewrite Hfs, elem_of_union, elem_of_singleton. tauto.
    + destruct Hcase as [(r & result & _ & _ & _ & _ & _ & _ & _ & _ & _ & _ & Hfs)
                         | [(e & result & lang & _ & _ & _ & _ & Hfs)
                         | [(_ & _ & _ & Hfs) | (e & _ & _ & Hfs)]]];
        rewrite Hfs; try destruct (separation_outcome st E _);
        rewrite ?elem_of_difference, ?elem_of_union, ?elem_of_singleton; tauto.
Qed.

(** X5.  A request that passes the three checks and the probe, whose
    separation and transcription succeed and whose configuration names a
    language, is answered 200.  The response echoes the correlation
    identifier, the probed duration and sample rate and the language hint,
    and carries the transcriber's text and segments; the upload and the
    vocals file are gone afterwards. *)
Theorem healthy_request_succeeds request file config w
    cfg ext size len_ms frame_rate result lang
    (Hconfig : from_json_string E config w = (Ok cfg, w))
    (Hname : validate_file_name_and_ext st file w = (Ok ext, w))
    (Hsize : validate_file_size st (content file) w = (Ok size, w))
    (Hprobe : from_file E (upload_path st E request ext w) = inr (len_ms, frame_rate))
    (Hsep : separation_outcome st E (upload_path st E request ext w) = None)
    (Htr : transcription_outcome E cfg (vocals_path st) = inr result)
    (Hlang : language_hint cfg = Some lang)
    (Hne : vocals_path st <> upload_path st E request ext w) :
  exists r,
    fst (post_transcribe st E request file config w)
    = {| status := 200; body := response_json r |} /\
    request_id r = correlation_id request /\
    duration_sec r = (inject_Z len_ms / 1000)%Q /\
    sample_rate r = frame_rate /\
    language r = lang /\
    response_text r = result_text result /\
    segments r = get_segments_from_whisper_results result /\
    fs (snd (post_transcribe st E request file config w))
    = (fs w ∖ {[vocals_path st]}) ∖ {[upload_path st E request ext w]}.
Proof.
  destruct (saved_request_outcomes st E request file config w cfg ext size
              Hconfig Hname Hsize)
    as (_ & [(e & Hp & _) | (len' & rate' & Hp & Hcase)]); [congruence |].
  rewrite Hprobe in Hp. injection Hp as <- <-.
  destruct Hcase as [(r & result' & Hfst & _ & _ & Htr' & Hl & Htext & Hsegs
                        & Hrid & Hdur & Hrate & Hfs)
                     | [(e & result' & lang' & Hsep' & _)
                     | [(Heq & _) | (e & Hcause & _)]]].
  - exists r. rewrite Htr in Htr'. injection Htr' as <-.
    rewrite Hlang in Hl. injection Hl as ->. auto 10.
  - congruence.
  - contradiction.
  - exfalso. unfold stage2_input in Hcause. rewrite Hsep in Hcause.
    destruct Hcause as [Hc | (result' & _ & Hnone)]; congruence.
Qed.

(** X6.  A request that passes the three checks and the probe, whose
    configuration names a language, whose separation raises and whose
    transcription of the upload succeeds, is answered 500 by the global
    handler for the [FileNotFoundError] of the handler's final release; the
    upload is gone afterwards. *)
Theorem degraded_request_is_answered_500 request file config w
    cfg ext size len_ms frame_rate e result lang
    (Hconfig : from_json_string E config w = (Ok cfg, w))
    (Hname : validate_file_name_and_ext st file w = (Ok ext, w))
    (Hsize : validate_file_size st (content file) w = (Ok size, w))
    (Hprobe : from_file E (upload_path st E request ext w) = inr (len_ms, frame_rate))
    (Hsep : separation_outcome st E (upload_path st E request ext w) = Some e)
    (Htr : transcription_outcome E cfg (upload_path st E request ext w) = inr result)
    (Hlang : language_hint cfg = Some lang) :
  fst (post_transcribe st E request file config w)
  = {| status := 500;
       body := internal_error_body st request
                 (FileNotFoundError (upload_path st E request ext w)) |} /\
  fs (snd (post_transcribe st E request file config w))
  = fs w ∖ {[upload_path st E request ext w]}.
Proof.
  destruct (saved_request_outcomes st E request file config w cfg ext size
              Hconfig Hname Hsize)
    as (_ & [(e' & Hp & _) | (len' & rate' & Hp & Hcase)]); [congruence |].
  destruct Hcase as [(r & result' & _ & Hsep' & _)
                     | [(e' & result' & lang' & _ & _ & _ & Hfst & Hfs)
                     | [(_ & Hsep' & _) | (e' & Hcause & _)]]].
  - congruence.
  - auto.
  - congruence.
  - exfalso. unfold stage2_input in Hcause. rewrite Hsep in Hcause.
    destruct Hcause as [Hc | (result' & _ & Hnone)]; congruence.
Qed.

(** X7.  When the probe of the saved upload raises, the answer is 422 for
    pydub's [CouldntDecodeError] and 500 for anything else; no model has
    been invoked, and the saved upload is still there. *)
Theorem failed_probe_leaves_upload request file config w cfg ext size e
    (Hconfig : from_json_string E config w = (Ok cfg, w))
    (Hname : validate_file_name_and_ext st file w = (Ok ext, w))
    (Hsize : validate_file_size st (content file) w = (Ok size, w))
    (Hprobe : from_file E (upload_path st E request ext w) = inl e) :
  status (fst (post_transcribe st E request file config w))
  = (if String.eqb (exc_type e) "CouldntDecodeError" then 422 else 500) /\
  fs (snd (post_transcribe st E request file config w))
  = {[upload_path st E request ext w]} ∪ fs w /\
  calls (snd (post_transcribe st E request file config w)) = calls w.
Proof.
  destruct (saved_request_outcomes st E request file config w cfg ext size
              Hconfig Hname Hsize)
    as (_ & [(e' & Hp & Hst & Hfs & Hcl) | (len' & rate' & Hp & _)]); [| congruence].
  rewrite Hprobe in Hp. injection Hp as <-. auto.
Qed.

(** X8.  A configuration whose [language_hint] is null is accepted, but a
    request that carries it is never answered 200. *)
Theorem null_language_hint_never_answers request file config w cfg
    (Hconfig : from_json_string E config w = (Ok cfg, w))
    (Hlang : language_hint cfg = None) :
  status (fst (post_transcribe st E request file config w)) <> 200.
Proof.
  intros Hstatus.
  destruct (ok_response_facts request file config w Hstatus)
    as (cfg' & Hc' & Hsome).
  rewrite Hconfig in Hc'. injection Hc' as <-. congruence.
Qed.

(** X9.  With a valid configuration and file name, the answer is 413
    exactly when the upload is longer than [max_file_size_mb] MiB: an upload
    of exactly that length passes. *)
Theorem size_limit_is_inclusive request file config w cfg ext
    (Hconfig : from_json_string E config w = (Ok cfg, w))
    (Hname : validate_file_name_and_ext st file w = (Ok ext, w)) :
  status (fst (post_transcribe st E request file config w)) = 413 <->
  max_file_size_mb st * 1024 * 1024 < Z.of_nat (List.length (content file)).
Proof.
  destruct (validate_file_size_cases st (content file) w) as [[Hs Hle] | (d & Hs & Hlt)].
  - split; [| lia]. intros Hstatus. exfalso.
    destruct (saved_request_outcomes st E request file config w cfg ext _
                Hconfig Hname Hs)
      as (_ & [(e & _ & Hst & _) | (len_ms & frame_rate & _ & Hcase)]).
    + rewrite Hst in Hstatus.
      destruct (String.eqb (exc_type e) "CouldntDecodeError"); discriminate.
    + destruct Hcase as [(r & result & Hst & _) | [(e & result & lang & _ & _ & _ & Hst & _)
                         | [(_ & _ & Hst & _) | (e & _ & Hst & _)]]];
        rewrite Hst in Hstatus; discriminate.
  - split; [intros _; exact Hlt |]. intros _.
    assert (Ht : transcribe st E request file config w
                 = (Raise (HTTPException 413 d), w)).
    { unfold transcribe. unfold bind at 1. rewrite Hconfig.
      unfold bind at 1. rewrite Hname.
      unfold bind at 1. rewrite Hs. reflexivity. }
    rewrite (post_transcribe_http _ _ _ _ _ _ _ _ _ Ht). reflexivity.
Qed.

(** X17.  A request that passes the three checks and the probe, whose
    separation succeeds (the vocals file not being the upload) and whose
    transcription stage raises an exception that the pool hands back to the
    handler as it is, is answered 500 with the category [processing_failed]
    and the message of the exception; the upload is released, the vocals
    file is not. *)
Theorem failed_transcription_keeps_vocals request file config w
    cfg ext size len_ms frame_rate e
    (Hconfig : from_json_string E config w = (Ok cfg, w))
    (Hname : validate_file_name_and_ext st file w = (Ok ext, w))
    (Hsize : validate_file_size st (content file) w = (Ok size, w))
    (Hprobe : from_file E (upload_path st E request ext w) = inr (len_ms, frame_rate))
    (Hsep : separation_outcome st E (upload_path st E request ext w) = None)
    (Htr : transcription_outcome E cfg (vocals_path st) = inl e)
    (Hpool : async_result_get E e = e)
    (Hne : vocals_path st <> upload_path st E request ext w) :
  fst (post_transcribe st E request file config w)
  = {| status := 500; body := processing_failed_body request e |} /\
  vocals_path st ∈ fs (snd (post_transcribe st E request file config w)) /\
  (upload_path st E request ext w
     ∉ fs (snd (post_transcribe st E request file config w))).
Proof.
  destruct (saved_request_outcomes st E request file config w cfg ext size
              Hconfig Hname Hsize)
    as (_ & [(e' & Hp & _) | (len' & rate' & Hp & Hcase)]); [congruence |].
  destruct Hcase as [(r & result' & _ & _ & _ & Htr' & _)
                     | [(e' & result' & lang' & Hsep' & _)
                     | [(Heq & _) | (e' & Hcause & Hfst & Hfs)]]];
    try congruence.
  unfold stage2_input in Hcause. rewrite Hsep in Hcause, Hfs.
  destruct Hcause as [Hc | (result' & Hc & _)]; [| congruence].
  rewrite Htr in Hc. injection Hc as <-. rewrite Hpool in Hfst.
  split; [exact Hfst |]. rewrite Hfs.
  rewrite !elem_of_difference, !elem_of_union, !elem_of_singleton.
  split; [auto | tauto].
Qed.

(** X18.  Two requests with the same correlation identifier (two requests
    without one both carry [unknown]) and the same extension are saved at
    different paths whenever the uuids drawn for them differ. *)
Theorem uploads_do_not_collide request1 request2 ext w1 w2
    (Hrid : correlation_id request1 = correlation_id request2)
    (Hdraw : uuid4 E (drawn w1) <> uuid4 E (drawn w2)) :
  upload_path st E request1 ext w1 <> upload_path st E request2 ext w2.
Proof.
  pose proof (upload_paths_differ st E request2 ext w1 w2 Hdraw) as H.
  unfold upload_path in *. rewrite Hrid. exact H.
Qed.

End endpoint_theorems.

(** ** Configurations that do not parse *)

Section config_failures.
Variable st : Settings.
Variable E : env.

(** What [from_json_string] does with an exception of the parse. *)
Lemma from_json_string_error text w e :
  parse_config E text = inl e ->
  from_json_string E text w
  = if is_ValueError e
    then (Raise (HTTPException 400
                   {[ "error" := VStr "invalid_config";
                      "detail" := VStr ("Invalid JSON configuration: " +:+ exc_str e) ]}),
          World (fs w)
            (logs w ++ [LogRecord ERROR "Invalid configuration"
                          [("error", VStr (exc_str e))]])
            (calls w) (tick w) (drawn w))
    else (Raise (Raised e), w).
Proof.
  unfold parse_config, from_json_string, try_except.
  destruct (json_loads E text) as [e' | j].
  - intros [= ->]. unfold raise, bind, log. cbv beta iota.
    destruct (is_ValueError e); reflexivity.
  - destruct (from_dict E j) as [e' | c]; [| discriminate].
    intros [= ->]. unfold raise, bind, log. cbv beta iota.
    destruct (is_ValueError e); reflexivity.
Qed.

(** X10.  When the config field cannot be parsed into a configuration, the
    request is turned away before the file is looked at: with 400 and the
    category [invalid_config] when the exception is a [ValueError] (a JSON
    syntax error, a field that fails validation), with 500 from the global
    handler otherwise.  Nothing is written and no model is invoked. *)
Theorem config_failure_response request file config w e
    (Hparse : parse_config E config = inl e) :
  fst (post_transcribe st E request file config w)
  = (if is_ValueError e
     then {| status := 400; body := invalid_config_body e |}
     else {| status := 500; body := internal_error_body st request e |}) /\
  same_resources w (snd (post_transcribe st E request file config w)).
Proof.
  pose proof (from_json_string_error config w e Hparse) as Hc.
  destruct (is_ValueError e).
  - assert (Ht : transcribe st E request file config w
                 = (Raise (HTTPException 400
                             {[ "error" := VStr "invalid_config";
                                "detail" := VStr ("Invalid JSON configuration: "
                                                  +:+ exc_str e) ]}),
                    World (fs w)
                      (logs w ++ [LogRecord ERROR "Invalid configuration"
                                    [("error", VStr (exc_str e))]])
                      (calls w) (tick w) (drawn w))).
    { unfold transcribe. unfold bind at 1. rewrite Hc. reflexivity. }
    rewrite (post_transcribe_http _ _ _ _ _ _ _ _ _ Ht).
    split; [reflexivity | repeat split].
  - assert (Ht : transcribe st E request file config w = (Raise (Raised e), w)).
    { unfold transcribe. unfold bind at 1. rewrite Hc. reflexivity. }
    destruct (post_transcribe_raised _ _ _ _ _ _ _ _ Ht) as [Hfst Hsame].
    split; [exact Hfst | exact Hsame].
Qed.

(** X11.  A config field that is valid JSON but not an object (an array, a
    number, a string, null) is not reported as an invalid configuration:
    unpacking it raises [TypeError], which the handler does not catch, and
    the answer is 500. *)
Theorem non_object_config_is_answered_500 request file config w j
    (Hloads : json_loads E config = inr j)
    (Hshape : forall d, j <> VDict d) :
  status (fst (post_transcribe st E request file config w)) = 500 /\
  body_request_id (body (fst (post_transcribe st E request file config w)))
  = Some (VStr (correlation_id request)) /\
  same_resources w (snd (post_transcribe st E request file config w)).
Proof.
  assert (Hparse : parse_config E config
                   = inl (PyExc "TypeError" (unpack_error_str E j))).
  { unfold parse_config. rewrite Hloads. unfold from_dict.
    destruct j; try reflexivity. exfalso. eapply Hshape. reflexivity. }
  assert (Ht : transcribe st E request file config w
               = (Raise (Raised (PyExc "TypeError" (unpack_error_str E j))), w)).
  { unfold transcribe. unfold bind at 1.
    rewrite (from_json_string_error config w _ Hparse). reflexivity. }
  destruct (post_transcribe_raised _ _ _ _ _ _ _ _ Ht) as [Hfst Hsame].
  rewrite Hfst. split; [reflexivity |]. split; [reflexivity | exact Hsame].
Qed.

End config_failures.

(** ** Calls and warnings of the worker *)

Section worker_theorems.
Variable st : Settings.
Variable E : env.

(** X12.  The calls the worker makes into the external models, in order:
    the separator first, whatever the configuration; [save_audio] only when
    the separator returned; then [load_model], also after a failed
    separation; and [transcribe] only when the model loaded, on the vocals
    file when separation succeeded and on the upload otherwise. *)
Theorem worker_call_order audio_fp cfg rid duration rate w :
  calls (snd (transcribe_audio st E audio_fp cfg rid duration rate w))
  = (calls w ++ expected_calls st E audio_fp cfg)%list.
Proof.
  unfold expected_calls. unfold_outcomes. unfold_worker.
  worker_cases; rewrite <- ?app_assoc; reflexivity.
Qed.

(** X13.  The worker logs the separation warning exactly when the
    separation stage raised, once, and logs no other warning. *)
Theorem warning_iff_separation_failed audio_fp cfg rid duration rate w :
  events_at WARNING (snd (transcribe_audio st E audio_fp cfg rid duration rate w))
  = (events_at WARNING w
     ++ match separation_outcome st E audio_fp with
        | Some _ => ["Vocal separation failed, skipping vocal separation step."]
        | None => []
        end)%list.
Proof.
  unfold events_at. unfold_outcomes. unfold_worker.
  worker_cases; rewrite ?List.filter_app, ?List.map_app; simpl;
    rewrite ?app_nil_r; reflexivity.
Qed.

End worker_theorems.

(** ** Consistency of the timings *)

(** On non-negative numbers truncation is the floor. *)
Lemma py_int_floor (x : Q) : (0 <= x)%Q -> py_int x = Qfloor x.
Proof.
  destruct x as [n d]. unfold Qle, py_int, Qfloor; simpl. intros H.
  apply Z.quot_div_nonneg; lia.
Qed.

Lemma py_int_below (x : Q) : (0 <= x)%Q -> (inject_Z (py_int x) <= x)%Q.
Proof.
  intros H. rewrite (py_int_floor x H). apply Qfloor_le.
Qed.

Lemma py_int_above (x : Q) : (0 <= x)%Q -> (x < inject_Z (py_int x) + 1)%Q.
Proof.
  intros H. rewrite (py_int_floor x H).
  pose proof (Qlt_floor x) as Hlt. rewrite inject_Z_plus in Hlt. exact Hlt.
Qed.

Lemma py_int_mono (x y : Q) : (0 <= x)%Q -> (x <= y)%Q -> py_int x <= py_int y.
Proof.
  intros Hx Hxy. rewrite (py_int_floor x Hx).
  rewrite (py_int_floor y) by (eapply Qle_trans; eassumption).
  apply Qfloor_resp_le. exact Hxy.
Qed.

Section timings.
Variable st : Settings.
Variable E : env.

(** Consecutive readings of an ordered clock. *)
Lemma clock_in_order_step w k :
  clock_in_order E w = true -> (k < 7)%nat ->
  (reading E w k <= reading E w (S k))%Q.
Proof.
  unfold clock_in_order. intros H Hk.
  rewrite forallb_forall in H. apply Qle_bool_iff, H, in_seq. lia.
Qed.

(** The four timings of a response, in terms of the readings. *)
Lemma worker_timings audio_fp cfg rid duration rate w r w' :
  transcribe_audio st E audio_fp cfg rid duration rate w = (Ok r, w') ->
  timings_ms r
  = {| load_ms := py_int ((reading E w 5 - reading E w 4) * 1000)%Q;
       separation_ms := py_int ((reading E w 2 - reading E w 1) * 1000)%Q;
       transcription_ms := py_int ((reading E w 6 - reading E w 3) * 1000)%Q;
       total_ms := py_int (reading E w 7 - reading E w 0)%Q * 1000 |}.
Proof.
  unfold reading. unfold_worker. intros H.
  worker_cases;
    replace (tick w + 0)%nat with (tick w) by lia;
    replace (tick w + 1)%nat with (S (tick w)) by lia;
    replace (tick w + 2)%nat with (S (S (tick w))) by lia;
    replace (tick w + 3)%nat with (S (S (S (tick w)))) by lia;
    replace (tick w + 4)%nat with (S (S (S (S (tick w))))) by lia;
    replace (tick w + 5)%nat with (S (S (S (S (S (tick w)))))) by lia;
    replace (tick w + 6)%nat with (S (S (S (S (S (S (tick w))))))) by lia;
    replace (tick w + 7)%nat with (S (S (S (S (S (S (S (tick w)))))))) by lia;
    reflexivity.
Qed.

(** X14.  With a clock that does not run backwards, the timings of a
    response are consistent: the separation and load times are
    non-negative, the load time is part of the transcription time, and the
    separation and transcription times together exceed the total by less
    than one second. *)
Theorem timings_are_consistent audio_fp cfg rid duration rate w r
    (Hrun : fst (transcribe_audio st E audio_fp cfg rid duration rate w) = Ok r)
    (Hclock : clock_in_order E w = true) :
  let t := timings_ms r in
  0 <= separation_ms t /\
  0 <= load_ms t <= transcription_ms t /\
  separation_ms t + transcription_ms t < total_ms t + 1000.
Proof.
  cbv zeta.
  destruct (transcribe_audio st E audio_fp cfg rid duration rate w)
    as [res w'] eqn:Hpair.
  cbn [fst] in Hrun. subst res.
  rewrite (worker_timings _ _ _ _ _ _ _ _ Hpair).
  cbn [load_ms separation_ms transcription_ms total_ms].
  pose proof (clock_in_order_step w 0 Hclock ltac:(lia)) as H0.
  pose proof (clock_in_order_step w 1 Hclock ltac:(lia)) as H1.
  pose proof (clock_in_order_step w 2 Hclock ltac:(lia)) as H2.
  pose proof (clock_in_order_step w 3 Hclock ltac:(lia)) as H3.
  pose proof (clock_in_order_step w 4 Hclock ltac:(lia)) as H4.
  pose proof (clock_in_order_step w 5 Hclock ltac:(lia)) as H5.
  pose proof (clock_in_order_step w 6 Hclock ltac:(lia)) as H6.
  set (t0 := reading E w 0) in *. set (t1 := reading E w 1) in *.
  set (t2 := reading E w 2) in *. set (t3 := reading E w 3) in *.
  set (t4 := reading E w 4) in *. set (t5 := reading E w 5) in *.
  set (t6 := reading E w 6) in *. set (t7 := reading E w 7) in *.
  assert (Hsep : (0 <= (t2 - t1) * 1000)%Q) by lra.
  assert (Hload : (0 <= (t5 - t4) * 1000)%Q) by lra.
  assert (Htr : (0 <= (t6 - t3) * 1000)%Q) by lra.
  assert (Htot : (0 <= t7 - t0)%Q) by lra.
  split; [apply py_int_nonneg; exact Hsep |].
  split; [split; [apply py_int_nonneg; exact Hload | apply py_int_mono; [exact Hload | lra]] |].
  pose proof (py_int_below _ Hsep) as Ha.
  pose proof (py_int_below _ Htr) as Hb.
  pose proof (py_int_above _ Htot) as Hc.
  rewrite Zlt_Qlt. rewrite !inject_Z_plus, inject_Z_mult.
  change (inject_Z 1000) with 1000%Q. lra.
Qed.

End timings.

(** ** File names *)

(** Auxiliary facts on strings. *)
Lemma append_cons c s t : String c s +:+ t = String c (s +:+ t).
Proof.
  reflexivity.
Qed.

Lemma occurs_append c s t : occurs c (s +:+ t) = (occurs c s || occurs c t)%bool.
Proof.
  induction s as [| c' s IH]; [reflexivity |].
  rewrite append_cons. cbn [occurs]. rewrite IH. apply orb_assoc.
Qed.

Lemma split_slash_plain s : occurs "/" s = false -> split_slash s = [s].
Proof.
  induction s as [| c s IH]; [reflexivity |].
  cbn [occurs split_slash]. intros H. apply orb_false_elim in H as [Hc Hs].
  rewrite (IH Hs), Hc. reflexivity.
Qed.

Lemma rfind_dot_none s : occurs "." s = false -> rfind_dot s = None.
Proof.
  induction s as [| c s IH]; [reflexivity |].
  cbn [occurs rfind_dot]. intros H. apply orb_false_elim in H as [Hc Hs].
  rewrite (IH Hs), Hc. reflexivity.
Qed.

Lemma rfind_dot_last stem ext :
  occurs "." ext = false ->
  rfind_dot (stem +:+ "." +:+ ext) = Some (String.length stem).
Proof.
  intros Hext. induction stem as [| c stem IH].
  - change ("" +:+ "." +:+ ext) with (String "." ext).
    cbn [rfind_dot]. rewrite (rfind_dot_none ext Hext). reflexivity.
  - rewrite append_cons. cbn [rfind_dot String.length]. rewrite IH. reflexivity.
Qed.

Lemma drop_string_append s t : drop_string (String.length s) (s +:+ t) = t.
Proof.
  induction s as [| c s IH]; [destruct t; reflexivity |].
  rewrite append_cons. cbn [String.length drop_string]. exact IH.
Qed.

Lemma lower_ascii_dot c : Ascii.eqb (lower_ascii c) "." = Ascii.eqb c ".".
Proof.
  destruct c as [[] [] [] [] [] [] [] []]; reflexivity.
Qed.

Lemma occurs_dot_lower s : occurs "." (lower s) = occurs "." s.
Proof.
  induction s as [| c s IH]; [reflexivity |].
  cbn [lower occurs]. rewrite lower_ascii_dot, IH. reflexivity.
Qed.

Lemma lstrip_dots_plain s : occurs "." s = false -> lstrip_dots s = s.
Proof.
  destruct s as [| c s]; [reflexivity |].
  cbn [occurs]. intros H. apply orb_false_elim in H as [Hc _].
  destruct c as [[] [] [] [] [] [] [] []]; try reflexivity; discriminate Hc.
Qed.

Lemma lstrip_dots_dot s : lstrip_dots (String "." s) = lstrip_dots s.
Proof.
  reflexivity.
Qed.

(** The suffix of a plain file name [stem.ext]. *)
Lemma path_suffix_plain stem ext :
  stem <> "" -> ext <> "" ->
  occurs "/" stem = false -> occurs "/" ext = false -> occurs "." ext = false ->
  path_suffix (stem +:+ "." +:+ ext) = "." +:+ ext.
Proof.
  intros Hstem Hext Hs1 Hs2 Hdot.
  assert (Hname : path_name (stem +:+ "." +:+ ext) = stem +:+ "." +:+ ext).
  { unfold path_name. rewrite split_slash_plain.
    - destruct stem as [| c stem]; [contradiction |].
      destruct ext as [| c' ext]; [contradiction |].
      rewrite append_cons. cbn [List.filter].
      assert (Hne : (String.eqb (String c (stem +:+ "." +:+ String c' ext)) ""
                     || String.eqb (String c (stem +:+ "." +:+ String c' ext)) ".")%bool
                    = false).
      { apply orb_false_intro; [reflexivity |].
        cbn [String.eqb]. destruct (Ascii.eqb c "."); [| reflexivity].
        destruct stem; reflexivity. }
      rewrite Hne. reflexivity.
    - rewrite !occurs_append, Hs1, Hs2. reflexivity. }
  unfold path_suffix. rewrite Hname, (rfind_dot_last stem ext Hdot).
  assert (Hlen : (Nat.ltb 0 (String.length stem)
                  && Nat.ltb (String.length stem)
                       (String.length (stem +:+ "." +:+ ext) - 1))%bool = true).
  { rewrite !append_length. cbn [String.length].
    destruct stem as [| c stem]; [contradiction |].
    destruct ext as [| c' ext]; [contradiction |].
    cbn [String.length]. apply andb_true_intro. split.
    - reflexivity.
    - apply Nat.ltb_lt. lia. }
  rewrite Hlen. apply drop_string_append.
Qed.

Section file_name.
Variable st : Settings.

(** X15.  A plain file name [stem.ext] (no slash, no dot in [ext], neither
    part empty, [ext] in ASCII) is accepted exactly when [ext], lower-cased,
    is one of the supported formats, and the extension returned is the
    lower-cased one; otherwise the request is turned away with 400 and
    [invalid_format]. *)
Theorem plain_name_extension stem ext bytes w
    (Hstem : stem <> "") (Hext : ext <> "") (Hascii : ascii_only ext = true)
    (Hslash1 : occurs "/" stem = false) (Hslash2 : occurs "/" ext = false)
    (Hdot : occurs "." ext = false) :
  validate_file_name_and_ext st
    {| filename := Some (stem +:+ "." +:+ ext); content := bytes |} w
  = if bool_decide (lower ext ∈ supported_formats st)
    then (Ok (lower ext), w)
    else (Raise (HTTPException 400
                   {[ "error" := VStr "invalid_format";
                      "detail" := VStr ("Unsupported format: " +:+ lower ext
                                        +:+ ". Supported: "
                                        +:+ repr_str_list (supported_formats st)) ]}),
          w).
Proof.
  unfold validate_file_name_and_ext. cbn [filename].
  rewrite (path_suffix_plain stem ext Hstem Hext Hslash1 Hslash2 Hdot).
  change ("." +:+ ext) with (String "." ext).
  cbn [lower]. change (lower_ascii ".") with "."%char.
  rewrite lstrip_dots_dot, lstrip_dots_plain by (rewrite occurs_dot_lower; exact Hdot).
  destruct stem as [| c stem]; [contradiction |].
  rewrite append_cons.
  destruct (bool_decide (lower ext ∈ supported_formats st)); reflexivity.
Qed.

(** A plain name is its own last component, unless it is a lone dot. *)
Lemma path_name_plain name :
  occurs "/" name = false -> path_name name = name \/ path_name name = "".
Proof.
  intros Hslash. unfold path_name. rewrite (split_slash_plain name Hslash).
  cbn [List.filter].
  destruct (negb (String.eqb name "" || String.eqb name ".")); auto.
Qed.

(** X16.  A plain file name with no extension is turned away with 400 and
    [invalid_format] (the empty string not being a supported format): a
    name without a dot, a name whose only dot is the first character, and a
    name whose last character is a dot. *)
Theorem name_without_extension_is_rejected name bytes w
    (Hname : name <> "")
    (Hslash : occurs "/" name = false)
    (Hshape : occurs "." name = false \/
              (exists rest, name = String "." rest /\ occurs "." rest = false) \/
              (exists stem, name = stem +:+ "."))
    (Hempty : "" ∉ supported_formats st) :
  validate_file_name_and_ext st {| filename := Some name; content := bytes |} w
  = (Raise (HTTPException 400
              {[ "error" := VStr "invalid_format";
                 "detail" := VStr ("Unsupported format: " +:+ ""
                                   +:+ ". Supported: "
                                   +:+ repr_str_list (supported_formats st)) ]}), w).
Proof.
  assert (Hsuffix : path_suffix name = "").
  { unfold path_suffix.
    destruct (path_name_plain name Hslash) as [-> | ->]; [| reflexivity].
    destruct Hshape as [Hnone | [(rest & -> & Hrest) | (stem & ->)]].
    - rewrite (rfind_dot_none name Hnone). reflexivity.
    - cbn [rfind_dot]. rewrite (rfind_dot_none rest Hrest). reflexivity.
    - change (stem +:+ ".") with (stem +:+ "." +:+ "").
      rewrite (rfind_dot_last stem "" eq_refl).
      assert (Hcond : (Nat.ltb 0 (String.length stem)
                       && Nat.ltb (String.length stem)
                            (String.length (stem +:+ "." +:+ "") - 1))%bool = false).
      { apply andb_false_intro2, Nat.ltb_ge.
        rewrite !append_length. cbn [String.length]. lia. }
      rewrite Hcond. reflexivity. }
  unfold validate_file_name_and_ext. cbn [filename].
  rewrite Hsuffix. cbn [lower lstrip_dots].
  destruct name as [| c name]; [contradiction |].
  rewrite bool_decide_eq_false_2 by exact Hempty. reflexivity.
Qed.

End file_name.

(** ** Instances *)

(** A text file sent while another request has a file on disk. *)
Lemma rejected_request_touches_nothing_witness :
  status (fst (post_transcribe service_settings healthy_env (request_of "req-5")
                 txt_upload empty_config_text busy_world)) = 400 /\
  same_resources busy_world
    (snd (post_transcribe service_settings healthy_env (request_of "req-5")
            txt_upload empty_config_text busy_world)).
Proof.
  assert (H : status (fst (post_transcribe service_settings healthy_env
                             (request_of "req-5") txt_upload empty_config_text
                             busy_world)) = 400) by (vm_compute; reflexivity).
  split; [exact H |].
  apply (rejected_request_touches_nothing service_settings healthy_env
           (request_of "req-5") txt_upload empty_config_text busy_world).
  left. exact H.
Defined.

(** A healthy request served while another request has a file on disk. *)
Lemma ok_response_means_clean_witness :
  status (fst (post_transcribe service_settings healthy_env (request_of "req-7")
                 wav_upload empty_config_text busy_world)) = 200 /\
  exists cfg ext r result,
    from_json_string healthy_env empty_config_text busy_world = (Ok cfg, busy_world) /\
    validate_file_name_and_ext service_settings wav_upload busy_world
    = (Ok ext, busy_world) /\
    body (fst (post_transcribe service_settings healthy_env (request_of "req-7")
                 wav_upload empty_config_text busy_world)) = response_json r /\
    separation_outcome service_settings healthy_env
      (upload_path service_settings healthy_env (request_of "req-7") ext busy_world)
    = None /\
    transcription_outcome healthy_env cfg (vocals_path service_settings) = inr result /\
    response_text r = result_text result /\
    segments r = get_segments_from_whisper_results result /\
    (upload_path service_settings healthy_env (request_of "req-7") ext busy_world
       ∉ fs (snd (post_transcribe service_settings healthy_env (request_of "req-7")
                    wav_upload empty_config_text busy_world))) /\
    (vocals_path service_settings
       ∉ fs (snd (post_transcribe service_settings healthy_env (request_of "req-7")
                    wav_upload empty_config_text busy_world))).
Proof.
  assert (H : status (fst (post_transcribe service_settings healthy_env
                             (request_of "req-7") wav_upload empty_config_text
                             busy_world)) = 200) by (vm_compute; reflexivity).
  split; [exact H |].
  exact (ok_response_means_clean service_settings healthy_env (request_of "req-7")
           wav_upload empty_config_text busy_world H).
Defined.

(** The file of the other request during that healthy request. *)
Lemma other_files_are_untouched_witness :
  other_file <> vocals_path service_settings /\
  (forall ext, other_file
               <> upload_path service_settings healthy_env (request_of "req-7")
                    ext busy_world) /\
  (other_file ∈ fs (snd (post_transcribe service_settings healthy_env
                           (request_of "req-7") wav_upload empty_config_text
                           busy_world))
   <-> other_file ∈ fs busy_world).
Proof.
  assert (H1 : other_file <> vocals_path service_settings)
    by (vm_compute; discriminate).
  assert (H2 : forall ext, other_file
                           <> upload_path service_settings healthy_env
                                (request_of "req-7") ext busy_world).
  { intros ext H. vm_compute in H. discriminate H. }
  split; [exact H1 |]. split; [exact H2 |].
  exact (other_files_are_untouched service_settings healthy_env (request_of "req-7")
           wav_upload empty_config_text busy_world other_file H1 H2).
Defined.

(** The healthy request, hypothesis by hypothesis. *)
Lemma healthy_request_succeeds_witness :
  exists r,
    fst (post_transcribe service_settings healthy_env (request_of "req-7")
           wav_upload empty_config_text busy_world)
    = {| status := 200; body := response_json r |} /\
    request_id r = "req-7" /\
    duration_sec r = (inject_Z 5000 / 1000)%Q /\
    sample_rate r = 16000 /\
    language r = "en" /\
    response_text r = "hello world" /\
    segments r = get_segments_from_whisper_results hello_world /\
    fs (snd (post_transcribe service_settings healthy_env (request_of "req-7")
               wav_upload empty_config_text busy_world))
    = (fs busy_world ∖ {[vocals_path service_settings]})
        ∖ {[upload_path service_settings healthy_env (request_of "req-7") "wav"
              busy_world]}.
Proof.
  apply (healthy_request_succeeds service_settings healthy_env (request_of "req-7")
           wav_upload empty_config_text busy_world default_config "wav" 4
           5000 16000 hello_world "en");
    try (vm_compute; reflexivity).
  vm_compute. discriminate.
Defined.

(** The separator runs out of memory. *)
Lemma degraded_request_is_answered_500_witness :
  fst (post_transcribe service_settings failing_separator_env (request_of "req-7")
         wav_upload empty_config_text busy_world)
  = {| status := 500;
       body := internal_error_body service_settings (request_of "req-7")
                 (FileNotFoundError
                    (upload_path service_settings failing_separator_env
                       (request_of "req-7") "wav" busy_world)) |} /\
  fs (snd (post_transcribe service_settings failing_separator_env
             (request_of "req-7") wav_upload empty_config_text busy_world))
  = fs busy_world
      ∖ {[upload_path service_settings failing_separator_env (request_of "req-7")
            "wav" busy_world]}.
Proof.
  apply (degraded_request_is_answered_500 service_settings failing_separator_env
           (request_of "req-7") wav_upload empty_config_text busy_world
           default_config "wav" 4 5000 16000 out_of_memory hello_world "en");
    vm_compute; reflexivity.
Defined.

(** The upload cannot be decoded. *)
Lemma failed_probe_leaves_upload_witness :
  status (fst (post_transcribe service_settings undecodable_env (request_of "req-7")
                 wav_upload empty_config_text busy_world)) = 422 /\
  fs (snd (post_transcribe service_settings undecodable_env (request_of "req-7")
             wav_upload empty_config_text busy_world))
  = {[upload_path service_settings undecodable_env (request_of "req-7") "wav"
        busy_world]} ∪ fs busy_world /\
  calls (snd (post_transcribe service_settings undecodable_env (request_of "req-7")
                wav_upload empty_config_text busy_world)) = calls busy_world.
Proof.
  apply (failed_probe_leaves_upload service_settings undecodable_env
           (request_of "req-7") wav_upload empty_config_text busy_world
           default_config "wav" 4 bad_header);
    vm_compute; reflexivity.
Defined.

(** The config field sets the language hint to null. *)
Lemma null_language_hint_never_answers_witness :
  from_json_string null_hint_env empty_config_text fresh_world
  = (Ok null_hint_config, fresh_world) /\
  status (fst (post_transcribe service_settings null_hint_env (request_of "req-7")
                 wav_upload empty_config_text fresh_world)) <> 200.
Proof.
  assert (H : from_json_string null_hint_env empty_config_text fresh_world
              = (Ok null_hint_config, fresh_world)) by (vm_compute; reflexivity).
  split; [exact H |].
  apply (null_language_hint_never_answers service_settings null_hint_env
           (request_of "req-7") wav_upload empty_config_text fresh_world
           null_hint_config H).
  reflexivity.
Defined.

(** Four bytes against a limit of 0 MiB. *)
Lemma size_limit_is_inclusive_witness :
  status (fst (post_transcribe tight_settings healthy_env (request_of "req-7")
                 wav_upload empty_config_text fresh_world)) = 413 <->
  max_file_size_mb tight_settings * 1024 * 1024
  < Z.of_nat (List.length (content wav_upload)).
Proof.
  apply (size_limit_is_inclusive tight_settings healthy_env (request_of "req-7")
           wav_upload empty_config_text fresh_world default_config "wav");
    vm_compute; reflexivity.
Defined.

(** A config field that is not JSON, sent with a text file. *)
Lemma config_failure_response_witness :
  fst (post_transcribe service_settings healthy_env (request_of "req-7")
         txt_upload malformed_config_text fresh_world)
  = {| status := 400;
       body := invalid_config_body
                 (PyExc "JSONDecodeError" "Expecting value: line 1 column 1 (char 0)") |} /\
  same_resources fresh_world
    (snd (post_transcribe service_settings healthy_env (request_of "req-7")
            txt_upload malformed_config_text fresh_world)).
Proof.
  apply (config_failure_response service_settings healthy_env (request_of "req-7")
           txt_upload malformed_config_text fresh_world
           (PyExc "JSONDecodeError" "Expecting value: line 1 column 1 (char 0)")).
  vm_compute. reflexivity.
Defined.

(** A config field that is a JSON array. *)
Lemma non_object_config_is_answered_500_witness :
  status (fst (post_transcribe service_settings array_config_env (request_of "req-7")
                 wav_upload empty_config_text fresh_world)) = 500 /\
  body_request_id
    (body (fst (post_transcribe service_settings array_config_env
                  (request_of "req-7") wav_upload empty_config_text fresh_world)))
  = Some (VStr "req-7") /\
  same_resources fresh_world
    (snd (post_transcribe service_settings array_config_env (request_of "req-7")
            wav_upload empty_config_text fresh_world)).
Proof.
  apply (non_object_config_is_answered_500 service_settings array_config_env
           (request_of "req-7") wav_upload empty_config_text fresh_world (VList [])).
  - reflexivity.
  - intros d H. discriminate H.
Defined.

(** The run of 7/8 of a second. *)
Lemma timings_are_consistent_witness :
  0 <= separation_ms (timings_ms brisk_response) /\
  0 <= load_ms (timings_ms brisk_response)
    <= transcription_ms (timings_ms brisk_response) /\
  separation_ms (timings_ms brisk_response)
    + transcription_ms (timings_ms brisk_response)
  < total_ms (timings_ms brisk_response) + 1000.
Proof.
  apply (timings_are_consistent service_settings brisk_env (first_upload "req-1")
           default_config "req-1" 5 16000 (upload_saved "req-1") brisk_response);
    vm_compute; reflexivity.
Defined.

(** An upper-case extension after a dotted stem. *)
Lemma plain_name_extension_witness :
  validate_file_name_and_ext service_settings
    {| filename := Some ("talk.final" +:+ "." +:+ "WAV"); content := riff |} fresh_world
  = (Ok "wav", fresh_world).
Proof.
  exact (plain_name_extension service_settings "talk.final" "WAV" riff fresh_world
           ltac:(discriminate) ltac:(discriminate) eq_refl eq_refl eq_refl eq_refl).
Defined.

(** A name that is only an extension. *)
Lemma name_without_extension_is_rejected_witness :
  validate_file_name_and_ext service_settings
    {| filename := Some ".wav"; content := riff |} fresh_world
  = (Raise (HTTPException 400
              {[ "error" := VStr "invalid_format";
                 "detail" := VStr ("Unsupported format: " +:+ ""
                                   +:+ ". Supported: "
                                   +:+ repr_str_list (supported_formats service_settings)) ]}),
     fresh_world).
Proof.
  apply (name_without_extension_is_rejected service_settings ".wav" riff fresh_world).
  - discriminate.
  - reflexivity.
  - right; left. exists "wav". split; reflexivity.
  - apply (proj1 (bool_decide_eq_false _)). vm_compute. reflexivity.
Defined.

(** The transcriber runs out of memory; the pool hands the [RuntimeError]
    back as it is. *)
Lemma failed_transcription_keeps_vocals_witness :
  async_result_get failing_transcriber_env out_of_memory = out_of_memory /\
  fst (post_transcribe service_settings failing_transcriber_env (request_of "req-7")
         wav_upload empty_config_text busy_world)
  = {| status := 500;
       body := processing_failed_body (request_of "req-7") out_of_memory |} /\
  vocals_path service_settings
    ∈ fs (snd (post_transcribe service_settings failing_transcriber_env
                 (request_of "req-7") wav_upload empty_config_text busy_world)) /\
  (upload_path service_settings failing_transcriber_env (request_of "req-7") "wav"
     busy_world
     ∉ fs (snd (post_transcribe service_settings failing_transcriber_env
                  (request_of "req-7") wav_upload empty_config_text busy_world))).
Proof.
  split; [reflexivity |].
  apply (failed_transcription_keeps_vocals service_settings failing_transcriber_env
           (request_of "req-7") wav_upload empty_config_text busy_world
           default_config "wav" 4 5000 16000 out_of_memory);
    try (vm_compute; reflexivity).
  vm_compute. discriminate.
Defined.

(** Two uploads of one client, one after the other. *)
Lemma uploads_do_not_collide_witness :
  upload_path service_settings healthy_env (request_of "req-7") "wav" fresh_world
  <> upload_path service_settings healthy_env (request_of "req-7") "wav" after_alice.
Proof.
  apply (uploads_do_not_collide service_settings healthy_env (request_of "req-7")
           (request_of "req-7") "wav" fresh_world after_alice).
  - reflexivity.
  - vm_compute. discriminate.
Defined.
